(** * KodesCRU: the collaborative room manager

    A shallow embedding of [room_manager.py] (the [RoomManager] class with its
    [User] and [Room] dataclasses) and of the room endpoints of [main.py],
    followed by the properties of the session coordinator.

    Conventions of the embedding.
    - A method of [RoomManager] becomes a function that takes the manager
      state and returns its result paired with the new state.
    - [uuid.uuid4()] and [datetime.utcnow()] are the only sources of
      nondeterminism; the values they return are passed in an [Env].
    - A websocket object is used by the code only as a hashable handle
      (key of [ws_users], element of a connection set) and as the target of
      [send_json]; it is a [nat] here, and the outcome of [send_json] is given
      by a function [nat -> bool] ([false]: the send raised).
    - [Room.users] is a Python dict, which iterates in insertion order; the
      host lookup of [join_room] stops at the first match and [to_dict] lists
      the values, so the dict is an association list kept in insertion order.
      The other dicts are looked up, written and deleted by key and are
      [gmap]s; a set of websockets is a [gset].  The one iteration over
      [self.rooms], in [get_public_rooms], is modelled up to the order of its
      result. *)

From Stdlib Require Import ZArith String List.
From stdpp Require Import base gmap sets list strings.

Local Open Scope string_scope.
Local Open Scope nat_scope.

#[local] Set Warnings "-clear-no-such-hyp".

(** ** Insertion-ordered dict with string keys *)

Section odict.
Context {V : Type}.

(** [k in d] followed by [d[k]], or [d.get(k)]. *)
Fixpoint od_get (k : string) (d : list (string * V)) : option V :=
  match d with
  | [] => None
  | (k', v) :: d' => if decide (k = k') then Some v else od_get k d'
  end.

(** [d[k] = v]: an existing key keeps its position, a new one goes last. *)
Fixpoint od_set (k : string) (v : V) (d : list (string * V)) : list (string * V) :=
  match d with
  | [] => [(k, v)]
  | (k', v') :: d' =>
      if decide (k = k') then (k, v) :: d' else (k', v') :: od_set k v d'
  end.

(** [d.pop(k, None)]: the removed value, if any, and the remaining dict. *)
Fixpoint od_pop (k : string) (d : list (string * V)) : option V * list (string * V) :=
  match d with
  | [] => (None, [])
  | (k', v) :: d' =>
      if decide (k = k') then (Some v, d')
      else let '(r, d'') := od_pop k d' in (r, (k', v) :: d'')
  end.

Definition od_keys (d : list (string * V)) : list string := map fst d.
Definition od_values (d : list (string * V)) : list V := map snd d.

End odict.

(** ** Dataclasses *)

Module User.
Record t := mk {
  id : string;
  name : string;
  color : string;
  is_host : bool;
  joined_at : string
}.
End User.

Module Room.
Record t := mk {
  id : string;
  name : string;
  host_id : string;
  language : string;
  code : string;
  created_at : string;
  max_users : Z;
  is_public : bool;
  users : list (string * User.t)
}.

Definition set_users (us : list (string * User.t)) (r : t) : t :=
  mk (id r) (name r) (host_id r) (language r) (code r) (created_at r)
     (max_users r) (is_public r) us.

Definition set_code (c : string) (r : t) : t :=
  mk (id r) (name r) (host_id r) (language r) c (created_at r)
     (max_users r) (is_public r) (users r).

Definition set_language (l : string) (r : t) : t :=
  mk (id r) (name r) (host_id r) l (code r) (created_at r)
     (max_users r) (is_public r) (users r).

(** The dict returned by [Room.to_dict]. *)
Record snapshot := mk_snapshot {
  s_id : string;
  s_name : string;
  s_host_id : string;
  s_language : string;
  s_code : string;
  s_created_at : string;
  s_max_users : Z;
  s_is_public : bool;
  s_users : list User.t;
  s_user_count : nat
}.

Definition to_dict (r : t) : snapshot :=
  mk_snapshot (id r) (name r) (host_id r) (language r) (code r) (created_at r)
    (max_users r) (is_public r) (od_values (users r)) (length (users r)).
End Room.

(** ** The manager state *)

Record RoomManager := mkRoomManager {
  rooms : gmap string Room.t;
  connections : gmap string (gset nat);
  user_rooms : gmap string string;
  ws_users : gmap nat string;
  color_index : nat
}.

Definition user_colors : list string :=
  [ "#FF6B6B"; "#4ECDC4"; "#45B7D1"; "#FFA07A";
    "#98D8C8"; "#F7DC6F"; "#BB8FCE"; "#85C1E2";
    "#F8B739"; "#52B788"; "#E76F51"; "#2A9D8F" ].

(** [RoomManager.__init__]. *)
Definition init : RoomManager := mkRoomManager ∅ ∅ ∅ ∅ 0.

Definition set_rooms (f : gmap string Room.t → gmap string Room.t) (m : RoomManager) :=
  mkRoomManager (f (rooms m)) (connections m) (user_rooms m) (ws_users m) (color_index m).
Definition set_connections (f : gmap string (gset nat) → gmap string (gset nat)) (m : RoomManager) :=
  mkRoomManager (rooms m) (f (connections m)) (user_rooms m) (ws_users m) (color_index m).
Definition set_user_rooms (f : gmap string string → gmap string string) (m : RoomManager) :=
  mkRoomManager (rooms m) (connections m) (f (user_rooms m)) (ws_users m) (color_index m).
Definition set_ws_users (f : gmap nat string → gmap nat string) (m : RoomManager) :=
  mkRoomManager (rooms m) (connections m) (user_rooms m) (f (ws_users m)) (color_index m).
Definition set_color_index (f : nat → nat) (m : RoomManager) :=
  mkRoomManager (rooms m) (connections m) (user_rooms m) (ws_users m) (f (color_index m)).

(** What the calls to [uuid.uuid4()] and [datetime.utcnow().isoformat()] of
    one method call return, in the order in which the method makes them. *)
Record Env := mkEnv {
  uuid1 : string;
  uuid2 : string;
  utcnow1 : string;
  utcnow2 : string
}.

(** Truth value of a Python [str]: only the empty string is false. *)
Definition truthy (s : string) : bool := negb (String.eqb s "").

(** [self.connections] is a [defaultdict(set)]: indexing a missing key stores
    an empty set under it first. *)
Definition conn_index (room_id : string) (c : gmap string (gset nat)) : gset nat :=
  default ∅ (c !! room_id).

(** [self.connections[room_id].add(websocket)] *)
Definition conn_add (room_id : string) (websocket : nat)
    (c : gmap string (gset nat)) : gmap string (gset nat) :=
  <[room_id := conn_index room_id c ∪ {[websocket]}]> c.

(** [self.connections[room_id].discard(websocket)] *)
Definition conn_discard (room_id : string) (websocket : nat)
    (c : gmap string (gset nat)) : gmap string (gset nat) :=
  <[room_id := conn_index room_id c ∖ {[websocket]}]> c.

(** ** Methods of [RoomManager] *)

Definition generate_room_id (uuid4 : string) : string := substring 0 8 uuid4.

Definition generate_user_id (uuid4 : string) : string := uuid4.

Definition get_user_color (m : RoomManager) : string * RoomManager :=
  (nth (color_index m mod length user_colors) user_colors "",
   set_color_index S m).

Definition create_room (e : Env) (name host_name language code : string)
    (max_users : Z) (is_public : bool) (m : RoomManager) : Room.t * RoomManager :=
  let room_id := generate_room_id (uuid1 e) in
  let host_id := generate_user_id (uuid2 e) in
  let '(color, m) := get_user_color m in
  let host := User.mk host_id host_name color true (utcnow1 e) in
  let room := Room.mk room_id name host_id language code (utcnow2 e)
                max_users is_public [(host_id, host)] in
  (room, set_rooms <[room_id := room]> m).

Definition get_room (room_id : string) (m : RoomManager) : option Room.t :=
  rooms m !! room_id.

Definition delete_room (room_id : string) (m : RoomManager) : bool * RoomManager :=
  match rooms m !! room_id with
  | Some room =>
      let m := set_user_rooms
                 (λ ur, foldl (λ ur user_id, delete user_id ur) ur
                          (od_keys (Room.users room))) m in
      let m := set_connections (delete room_id) m in
      let m := set_rooms (delete room_id) m in
      (true, m)
  | None => (false, m)
  end.

(** The loop of [join_room] that looks for a host of the given name. *)
Definition find_host (user_name : string) (us : list (string * User.t)) : option User.t :=
  List.find (λ user, String.eqb (User.name user) user_name && User.is_host user)
            (od_values us).

Definition join_room (e : Env) (room_id user_name : string) (websocket : nat)
    (m : RoomManager) : option User.t * RoomManager :=
  match get_room room_id m with
  | None => (None, m)
  | Some room =>
      if (Room.max_users room <=? Z.of_nat (length (Room.users room)))%Z
      then (None, m)
      else
        let reconnect :=
          match ws_users m !! websocket with
          | Some existing_user_id =>
              if truthy existing_user_id
              then od_get existing_user_id (Room.users room)
              else None
          | None => None
          end in
        match reconnect with
        | Some user => (Some user, set_connections (conn_add room_id websocket) m)
        | None =>
            match find_host user_name (Room.users room) with
            | Some user =>
                let m := set_connections (conn_add room_id websocket) m in
                let m := set_ws_users <[websocket := User.id user]> m in
                let m := match user_rooms m !! User.id user with
                         | Some _ => m
                         | None => set_user_rooms <[User.id user := room_id]> m
                         end in
                (Some user, m)
            | None =>
                let user_id := generate_user_id (uuid1 e) in
                let '(color, m) := get_user_color m in
                let user := User.mk user_id user_name color false (utcnow1 e) in
                let room := Room.set_users (od_set user_id user (Room.users room)) room in
                let m := set_rooms <[room_id := room]> m in
                let m := set_user_rooms <[user_id := room_id]> m in
                let m := set_connections (conn_add room_id websocket) m in
                let m := set_ws_users <[websocket := user_id]> m in
                (Some user, m)
            end
        end
  end.

Definition leave_room (websocket : nat) (m : RoomManager)
    : option (string * option User.t) * RoomManager :=
  match ws_users m !! websocket with
  | None => (None, m)
  | Some user_id =>
      if negb (truthy user_id) then (None, m) else
      match user_rooms m !! user_id with
      | None => (None, m)
      | Some room_id =>
          if negb (truthy room_id) then (None, m) else
          match get_room room_id m with
          | None => (None, m)
          | Some room =>
              let '(user, us) := od_pop user_id (Room.users room) in
              let m := set_rooms <[room_id := Room.set_users us room]> m in
              let m := set_user_rooms (delete user_id) m in
              let m := set_connections (conn_discard room_id websocket) m in
              let m := set_ws_users (delete websocket) m in
              let m := if Nat.eqb (length us) 0
                       then snd (delete_room room_id m) else m in
              (Some (room_id, user), m)
          end
      end
  end.

Definition update_code (room_id code : string) (m : RoomManager) : bool * RoomManager :=
  match get_room room_id m with
  | Some room => (true, set_rooms <[room_id := Room.set_code code room]> m)
  | None => (false, m)
  end.

Definition update_language (room_id language : string) (m : RoomManager)
    : bool * RoomManager :=
  match get_room room_id m with
  | Some room => (true, set_rooms <[room_id := Room.set_language language room]> m)
  | None => (false, m)
  end.

Definition get_room_users (room_id : string) (m : RoomManager) : list User.t :=
  match get_room room_id m with
  | Some room => od_values (Room.users room)
  | None => []
  end.

(** [self.connections.get(room_id, set())]: no key is created here. *)
Definition get_connections (room_id : string) (m : RoomManager) : gset nat :=
  default ∅ (connections m !! room_id).

(** [get_public_rooms]: the snapshots of the rooms with [is_public].  Python
    lists them in the order in which the rooms were stored; the [gmap] does
    not keep that order, so this list is the result up to a permutation and
    only its members and its length are spoken of. *)
Definition get_public_rooms (m : RoomManager) : list Room.snapshot :=
  Room.to_dict <$> filter (λ room, Room.is_public room = true)
                     (snd <$> map_to_list (rooms m)).

(** The sweep of [broadcast_to_room] over the connections, in the order in
    which the set is iterated: the websockets [send_json] was called on and
    the set [disconnected] of those for which it raised. *)
Fixpoint sweep (send_json : nat → bool) (exclude_ws : option nat) (l : list nat)
    : list nat * gset nat :=
  match l with
  | [] => ([], ∅)
  | ws :: l' =>
      let '(sent, disconnected) := sweep send_json exclude_ws l' in
      if bool_decide (Some ws = exclude_ws) then (sent, disconnected)
      else if send_json ws then (ws :: sent, disconnected)
      else (ws :: sent, {[ws]} ∪ disconnected)
  end.

(** The clean-up loop: [leave_room] on each disconnected websocket. *)
Definition cleanup (l : list nat) (m : RoomManager) : RoomManager :=
  foldl (λ m ws, snd (leave_room ws m)) m l.

(** [broadcast_to_room]; the message itself plays no role.  The result is the
    list of websockets a send was attempted on and the new state.  This is the
    call during whose sends no other handler runs; [broadcast_to_room_during]
    below is the call with the handlers of other connections running while a
    send is awaited. *)
Definition broadcast_to_room (send_json : nat → bool) (room_id : string)
    (exclude_ws : option nat) (m : RoomManager) : list nat * RoomManager :=
  let '(sent, disconnected) :=
    sweep send_json exclude_ws (elements (get_connections room_id m)) in
  (sent, cleanup (elements disconnected) m).

(** ** The room endpoints of [main.py] *)

(** [main.py] reaches the manager through the global instance
    [room_manager]. *)
Module room_manager.
Definition create_room := create_room.
Definition get_room := get_room.
Definition delete_room := delete_room.
Definition get_public_rooms := get_public_rooms.
End room_manager.

Module Main.

(** The pydantic model of the body of [POST /rooms/create], after type
    coercion. *)
Record CreateRoomRequest := mkCreateRoomRequest {
  name : string;
  host_name : string;
  language : string;
  code : string;
  max_users : Z;
  is_public : bool
}.

(** The [Field] constraints of [CreateRoomRequest]: [min_length=1] on [name]
    and [host_name], [ge=2, le=50] on [max_users].  FastAPI checks them before
    it calls the endpoint function. *)
Definition validate (req : CreateRoomRequest) : bool :=
  (1 <=? String.length (name req))%nat && (1 <=? String.length (host_name req))%nat
  && (2 <=? max_users req)%Z && (max_users req <=? 50)%Z.

Inductive Response :=
| RoomResponse (room : Room.snapshot)   (* {"success": True, "room": ...} *)
| Message (message : string)            (* {"success": True, "message": ...} *)
| ValidationError                       (* the request model was refused *)
| HTTPException (status_code : Z) (detail : string).

(** [POST /rooms/create] *)
Definition create_room (e : Env) (request : CreateRoomRequest) (m : RoomManager)
    : Response * RoomManager :=
  if validate request then
    let '(room, m) :=
      room_manager.create_room e (name request) (host_name request)
        (language request) (code request) (max_users request)
        (is_public request) m in
    (RoomResponse (Room.to_dict room), m)
  else (ValidationError, m).

(** [GET /rooms/{room_id}] *)
Definition get_room (room_id : string) (m : RoomManager) : Response :=
  match room_manager.get_room room_id m with
  | None => HTTPException 404 "Room not found"
  | Some room => RoomResponse (Room.to_dict room)
  end.

(** [GET /rooms]: the fields [rooms] and [count] of the answer. *)
Definition list_rooms (m : RoomManager) : list Room.snapshot * nat :=
  let rooms := room_manager.get_public_rooms m in
  (rooms, length rooms).

(** [DELETE /rooms/{room_id}] *)
Definition delete_room (room_id : string) (m : RoomManager) : Response * RoomManager :=
  match room_manager.get_room room_id m with
  | None => (HTTPException 404 "Room not found", m)
  | Some room =>
      if (0 <? length (Room.users room))%nat
      then (HTTPException 403 "Cannot delete room with active users", m)
      else
        let '(success, m) := room_manager.delete_room room_id m in
        if success then (Message "Room deleted", m)
        else (HTTPException 500 "Failed to delete room", m)
  end.

End Main.

(** ** Runs of the coordinator *)

(** One call from outside: a method of the manager or a room endpoint. *)
Inductive op :=
| OpCreate (e : Env) (name host_name language code : string)
    (max_users : Z) (is_public : bool)
| OpJoin (e : Env) (room_id user_name : string) (websocket : nat)
| OpLeave (websocket : nat)
| OpUpdateCode (room_id code : string)
| OpUpdateLanguage (room_id language : string)
| OpDeleteRoom (room_id : string)
| OpBroadcast (send_json : nat → bool) (room_id : string) (exclude_ws : option nat)
| OpPostCreate (e : Env) (request : Main.CreateRoomRequest)
| OpDelete (room_id : string).

Definition exec (o : op) (m : RoomManager) : RoomManager :=
  match o with
  | OpCreate e name host_name language code max_users is_public =>
      snd (create_room e name host_name language code max_users is_public m)
  | OpJoin e room_id user_name websocket =>
      snd (join_room e room_id user_name websocket m)
  | OpLeave websocket => snd (leave_room websocket m)
  | OpUpdateCode room_id code => snd (update_code room_id code m)
  | OpUpdateLanguage room_id language => snd (update_language room_id language m)
  | OpDeleteRoom room_id => snd (delete_room room_id m)
  | OpBroadcast send_json room_id exclude_ws =>
      snd (broadcast_to_room send_json room_id exclude_ws m)
  | OpPostCreate e request => snd (Main.create_room e request m)
  | OpDelete room_id => snd (Main.delete_room room_id m)
  end.

Definition run (ops : list op) (m : RoomManager) : RoomManager :=
  foldl (λ m o, exec o m) m ops.

(** The states the coordinator can be in: those a run from the state of
    [__init__] ends in. *)
Definition reachable (m : RoomManager) : Prop := ∃ ops, m = run ops init.

(** ** A broadcast while other handlers run *)

(** [broadcast_to_room] is a coroutine.  It is suspended at each
    [await ws.send_json(message)], and the handlers of the other connections
    run in the meantime; the clean-up loop has no [await] and runs in one
    piece.  The [for] statement iterates the set that is stored in
    [self.connections], not a copy of it ([get_connections] returns the set
    itself).  If that set is changed while a send is awaited, the [for]
    statement raises [RuntimeError] where the size has changed, which is
    outside the [try] and skips the clean-up loop, and otherwise no longer
    iterates the set as it was.

    [quiet room_id ops m]: none of the calls [ops], made one after the other
    from [m], changes the entry of the room in [self.connections]. *)
Fixpoint quiet (room_id : string) (ops : list op) (m : RoomManager) : bool :=
  match ops with
  | [] => true
  | o :: ops' =>
      bool_decide (connections (exec o m) !! room_id = connections m !! room_id)
      && quiet room_id ops' (exec o m)
  end.

(** The sweep with the calls [others ws] made by other handlers while the
    send to [ws] is awaited: the websockets sent to, the set [disconnected]
    and the state when the loop ends.  The result is [None] when some of
    those calls changes the set being iterated; what the loop does then is
    not modelled. *)
Fixpoint sweep_during (send_json : nat → bool) (others : nat → list op)
    (room_id : string) (exclude_ws : option nat) (l : list nat) (m : RoomManager)
    : option (list nat * gset nat * RoomManager) :=
  match l with
  | [] => Some ([], ∅, m)
  | ws :: l' =>
      if bool_decide (Some ws = exclude_ws)
      then sweep_during send_json others room_id exclude_ws l' m
      else if quiet room_id (others ws) m then
        match sweep_during send_json others room_id exclude_ws l'
                (run (others ws) m) with
        | Some (sent, disconnected, m') =>
            Some (ws :: sent,
                  if send_json ws then disconnected else {[ws]} ∪ disconnected,
                  m')
        | None => None
        end
      else None
  end.

(** [broadcast_to_room] with other handlers running during its sends. *)
Definition broadcast_to_room_during (send_json : nat → bool) (others : nat → list op)
    (room_id : string) (exclude_ws : option nat) (m : RoomManager)
    : option (list nat * RoomManager) :=
  match sweep_during send_json others room_id exclude_ws
          (elements (get_connections room_id m)) m with
  | Some (sent, disconnected, m') => Some (sent, cleanup (elements disconnected) m')
  | None => None
  end.

(** ** Predicates of the statements *)

(** Every registered room has a user. *)
Definition rooms_nonempty (m : RoomManager) : Prop :=
  ∀ room_id room, get_room room_id m = Some room → Room.users room ≠ [].

(** The test of [join_room]: [len(room.users) >= room.max_users]. *)
Definition full (room : Room.t) : Prop :=
  (Room.max_users room ≤ Z.of_nat (length (Room.users room)))%Z.

(** The websocket is in the connection set of the room. *)
Definition attached (websocket : nat) (room_id : string) (m : RoomManager) : Prop :=
  websocket ∈ get_connections room_id m.

(** No connection set of [m'] has a websocket that the one of [m] lacks. *)
Definition connections_within (m' m : RoomManager) : Prop :=
  ∀ room_id, get_connections room_id m' ⊆ get_connections room_id m.

(** Each websocket joins only the room of its own URL: the handler of
    [/ws/{room_id}] overwrites [message["room_id"]] with the path parameter
    before it dispatches the message, so every [join] of a websocket names the
    room id [scope websocket] it was opened on. *)
Definition scoped (scope : nat → string) (ops : list op) : Prop :=
  Forall (λ o, match o with
               | OpJoin _ room_id _ websocket => room_id = scope websocket
               | _ => True
               end) ops.

(** Two rooms that differ at most in [code], resp. in [language]. *)
Definition same_but_code (r r' : Room.t) : Prop :=
  Room.id r' = Room.id r ∧ Room.name r' = Room.name r ∧
  Room.host_id r' = Room.host_id r ∧ Room.language r' = Room.language r ∧
  Room.created_at r' = Room.created_at r ∧ Room.max_users r' = Room.max_users r ∧
  Room.is_public r' = Room.is_public r ∧ Room.users r' = Room.users r.

Definition same_but_language (r r' : Room.t) : Prop :=
  Room.id r' = Room.id r ∧ Room.name r' = Room.name r ∧
  Room.host_id r' = Room.host_id r ∧ Room.code r' = Room.code r ∧
  Room.created_at r' = Room.created_at r ∧ Room.max_users r' = Room.max_users r ∧
  Room.is_public r' = Room.is_public r ∧ Room.users r' = Room.users r.

(** Everything but the room [room_id] is the same in [m] and [m']. *)
Definition same_but_room (room_id : string) (m m' : RoomManager) : Prop :=
  (∀ other, other ≠ room_id → rooms m' !! other = rooms m !! other) ∧
  connections m' = connections m ∧ user_rooms m' = user_rooms m ∧
  ws_users m' = ws_users m ∧ color_index m' = color_index m.

(** The state of [leave_room] after its four removals, before the test for
    an empty room. *)
Definition left_state (websocket : nat) (user_id room_id : string) (room : Room.t)
    (m : RoomManager) : RoomManager :=
  set_ws_users (delete websocket)
    (set_connections (conn_discard room_id websocket)
       (set_user_rooms (delete user_id)
          (set_rooms <[room_id := Room.set_users (od_pop user_id (Room.users room)).2 room]> m))).

(** Every registered room satisfies [P]. *)
Definition rooms_all (P : Room.t → Prop) (m : RoomManager) : Prop :=
  ∀ room_id room, get_room room_id m = Some room → P room.

(** The calls of [create_room] of a run, direct ones and those of the
    endpoint, all have a [max_users] that satisfies [ok]. *)
Definition creates_with (ok : Z → Prop) (ops : list op) : Prop :=
  Forall (λ o, match o with
               | OpCreate _ _ _ _ _ max_users _ => ok max_users
               | OpPostCreate _ request =>
                   Main.validate request = true → ok (Main.max_users request)
               | _ => True
               end) ops.

(** The users of a room are stored under their own ids, no id twice, and a
    user with the host flag is stored under the [host_id] of the room. *)
Definition room_wf (room : Room.t) : Prop :=
  NoDup (od_keys (Room.users room)) ∧
  Forall (λ entry, User.id entry.2 = entry.1 ∧
                   (User.is_host entry.2 = true → entry.1 = Room.host_id room))
         (Room.users room).

(** The user count of a room is within the capacity; a room made with a
    capacity below one still has its host. *)
Definition within_capacity (room : Room.t) : Prop :=
  (Z.of_nat (length (Room.users room)) ≤ Z.max 1 (Room.max_users room))%Z.

(** The capacity is one the endpoint accepts, and the user count is between
    one and the capacity. *)
Definition bounded_room (room : Room.t) : Prop :=
  (2 ≤ Room.max_users room ≤ 50)%Z ∧
  (1 ≤ Z.of_nat (length (Room.users room)) ≤ Room.max_users room)%Z.

(** The colour counter after [n] draws. *)
Definition draw_colors (n : nat) (m : RoomManager) : RoomManager :=
  Nat.iter n (λ m, (get_user_color m).2) m.

(** The user that [join_room] makes for a new participant. *)
Definition new_user (e : Env) (user_name : string) (m : RoomManager) : User.t :=
  User.mk (generate_user_id (uuid1 e)) user_name (get_user_color m).1 false (utcnow1 e).

(** The state of [join_room] after it has added a new participant. *)
Definition joined_new_state (e : Env) (room_id user_name : string) (websocket : nat)
    (room : Room.t) (m : RoomManager) : RoomManager :=
  set_ws_users <[websocket := generate_user_id (uuid1 e)]>
    (set_connections (conn_add room_id websocket)
       (set_user_rooms <[generate_user_id (uuid1 e) := room_id]>
          (set_rooms <[room_id := Room.set_users
                          (od_set (generate_user_id (uuid1 e)) (new_user e user_name m)
                             (Room.users room)) room]>
             (get_user_color m).2))).

(** The state of [join_room] after it has attached the websocket to the
    host. *)
Definition joined_host_state (room_id : string) (websocket : nat) (host : User.t)
    (m : RoomManager) : RoomManager :=
  let m := set_ws_users <[websocket := User.id host]>
             (set_connections (conn_add room_id websocket) m) in
  match user_rooms m !! User.id host with
  | Some _ => m
  | None => set_user_rooms <[User.id host := room_id]> m
  end.

(** The websocket is not associated with a user of the room: the reconnect
    test of [join_room] fails. *)
Definition no_reconnect (websocket : nat) (room : Room.t) (m : RoomManager) : Prop :=
  ∀ existing, ws_users m !! websocket = Some existing →
              existing = "" ∨ od_get existing (Room.users room) = None.

(** ** Sample runs *)

Definition env_demo : Env :=
  mkEnv "3f2a9c1e-7b4d-4e8a-9c21-5d6f7a8b9c0d"
        "a1b2c3d4-0000-4000-8000-00000000000a"
        "2024-05-01T10:00:00.000001" "2024-05-01T10:00:00.000002".

Definition env_other : Env :=
  mkEnv "77e0d5b2-1c3a-4f6e-8d90-1a2b3c4d5e6f"
        "a1b2c3d4-0000-4000-8000-00000000000c"
        "2024-05-01T10:00:01.000001" "2024-05-01T10:00:01.000002".

Definition env_alice2 : Env :=
  mkEnv "a1b2c3d4-0000-4000-8000-0000000000a2" "" "2024-05-01T10:01:00.000001" "".

Definition env_bob : Env :=
  mkEnv "a1b2c3d4-0000-4000-8000-00000000000b" "" "2024-05-01T10:02:00.000001" "".

Definition request_demo (max_users : Z) : Main.CreateRoomRequest :=
  Main.mkCreateRoomRequest "demo" "Alice" "Python" "" max_users true.

(** The scenario of a room of capacity 2 with its host Alice and with Bob,
    who joined on websocket 7. *)
Definition full_room_run : list op :=
  [ OpPostCreate env_demo (request_demo 2);
    OpJoin env_bob "3f2a9c1e" "Bob" 7 ].

(** Two rooms, and websocket 7 joining one and then the other. *)
Definition two_rooms_run : list op :=
  [ OpPostCreate env_demo (request_demo 10);
    OpPostCreate env_other (request_demo 10);
    OpJoin env_bob "3f2a9c1e" "Bob" 7 ].

(** The host Alice joins her room from websockets 1 and 2, Bob joins from
    websocket 3, and websocket 1 leaves. *)
Definition host_twice_run : list op :=
  [ OpPostCreate env_demo (request_demo 10);
    OpJoin env_alice2 "3f2a9c1e" "Alice" 1;
    OpJoin env_alice2 "3f2a9c1e" "Alice" 2;
    OpJoin env_bob "3f2a9c1e" "Bob" 3;
    OpLeave 1 ].

(** [send_json] raises on websocket 2 only. *)
Definition send_fails_on_2 (websocket : nat) : bool := negb (Nat.eqb websocket 2).

(** Membership of a given websocket in a connection set of a given run, by
    evaluation. *)
Ltac in_connections :=
  unfold attached; apply (bool_decide_unpack _); vm_compute; exact I.

(** * Properties *)

(** ** The ordered dict *)

Lemma od_set_nonempty {V} (k : string) (v : V) d : od_set k v d ≠ [].
Proof. destruct d as [|[k' v'] d]; simpl; [done|]. by case_decide. Qed.

Lemma od_pop_last {V} (k : string) (d : list (string * V)) v d' :
  length d = 1 → od_pop k d = (Some v, d') → d' = [].
Proof.
  destruct d as [|[k' v'] [|? ?]]; simpl; try done.
  case_decide; intros _ [= ]; by subst.
Qed.

(** ** Frame lemmas of the methods *)

Lemma delete_room_rooms room_id m :
  rooms (delete_room room_id m).2 = delete room_id (rooms m).
Proof.
  unfold delete_room. destruct (rooms m !! room_id) eqn:E; simpl; [done|].
  by rewrite delete_id.
Qed.

Lemma delete_room_ws_users room_id m :
  ws_users (delete_room room_id m).2 = ws_users m.
Proof. unfold delete_room. by destruct (rooms m !! room_id). Qed.

Lemma delete_room_result room_id m :
  (delete_room room_id m).1 = bool_decide (is_Some (rooms m !! room_id)).
Proof.
  unfold delete_room. destruct (rooms m !! room_id) eqn:E; symmetry.
  - by apply bool_decide_eq_true_2.
  - apply bool_decide_eq_false_2. by intros [? ?].
Qed.

Lemma delete_room_connections room_id m :
  connections_within (delete_room room_id m).2 m.
Proof.
  unfold delete_room, connections_within, get_connections. intros rid.
  destruct (rooms m !! room_id); simpl; [|done].
  destruct (decide (rid = room_id)) as [->|].
  - rewrite lookup_delete_eq. simpl. set_solver.
  - by rewrite lookup_delete_ne.
Qed.

Lemma leave_room_cases websocket m :
  leave_room websocket m = (None, m) ∨
  ∃ user_id room_id room,
    ws_users m !! websocket = Some user_id ∧
    user_rooms m !! user_id = Some room_id ∧
    get_room room_id m = Some room ∧
    leave_room websocket m =
      (Some (room_id, (od_pop user_id (Room.users room)).1),
       if Nat.eqb (length (od_pop user_id (Room.users room)).2) 0
       then (delete_room room_id (left_state websocket user_id room_id room m)).2
       else left_state websocket user_id room_id room m).
Proof.
  unfold leave_room.
  destruct (ws_users m !! websocket) as [user_id|] eqn:Hws; [|by left].
  destruct (truthy user_id); simpl; [|by left].
  destruct (user_rooms m !! user_id) as [room_id|] eqn:Hur; [|by left].
  destruct (truthy room_id); simpl; [|by left].
  destruct (get_room room_id m) as [room|] eqn:Hroom; [|by left].
  right. exists user_id, room_id, room. repeat split; try done.
  unfold left_state. by destruct (od_pop user_id (Room.users room)).
Qed.

Lemma leave_room_none websocket m m' :
  leave_room websocket m = (None, m') → m' = m.
Proof.
  destruct (leave_room_cases websocket m) as [->|(?&?&?&_&_&_&->)]; congruence.
Qed.

Lemma leave_room_ws_users websocket m res m' :
  leave_room websocket m = (Some res, m') → ws_users m' !! websocket = None.
Proof.
  destruct (leave_room_cases websocket m) as [->|(u&r&room&_&_&_&->)]; [done|].
  intros [= _ <-]. destruct (length (od_pop u (Room.users room)).2 =? 0).
  - rewrite delete_room_ws_users. apply lookup_delete_eq.
  - apply lookup_delete_eq.
Qed.

Lemma leave_room_connections websocket m :
  connections_within (leave_room websocket m).2 m.
Proof.
  destruct (leave_room_cases websocket m) as [->|(u&r&room&_&_&_&->)];
    [by intros ?|].
  assert (connections_within (left_state websocket u r room m) m) as Hleft.
  { intros rid. unfold left_state, get_connections, conn_discard, conn_index; simpl.
    destruct (decide (rid = r)) as [->|].
    - rewrite lookup_insert_eq. simpl. by apply subseteq_difference_l.
    - by rewrite lookup_insert_ne. }
  simpl. destruct (length (od_pop u (Room.users room)).2 =? 0); [|done].
  intros rid. etrans; [apply delete_room_connections|apply Hleft].
Qed.

Lemma leave_room_rooms_nonempty websocket m :
  rooms_nonempty m → rooms_nonempty (leave_room websocket m).2.
Proof.
  intros Hm.
  destruct (leave_room_cases websocket m) as [->|(u&r&room&_&_&_&->)]; [done|].
  simpl. intros rid room'. unfold get_room.
  destruct (Nat.eqb_spec (length (od_pop u (Room.users room)).2) 0) as [E|E].
  - rewrite delete_room_rooms. simpl.
    destruct (decide (rid = r)) as [->|].
    + by rewrite lookup_delete_eq.
    + rewrite lookup_delete_ne, lookup_insert_ne by done. apply Hm.
  - simpl. destruct (decide (rid = r)) as [->|].
    + rewrite lookup_insert_eq. intros [= <-]. simpl.
      by destruct (od_pop u (Room.users room)).2.
    + rewrite lookup_insert_ne by done. apply Hm.
Qed.

Lemma cleanup_connections l m : connections_within (cleanup l m) m.
Proof.
  revert m. induction l as [|ws l IH]; intros m; simpl; [by intros ?|].
  intros rid. etrans; [apply IH|apply leave_room_connections].
Qed.

Lemma cleanup_rooms_nonempty l m : rooms_nonempty m → rooms_nonempty (cleanup l m).
Proof.
  revert m. induction l as [|ws l IH]; intros m Hm; simpl; [done|].
  by apply IH, leave_room_rooms_nonempty.
Qed.

Lemma broadcast_to_room_state send_json room_id exclude_ws m :
  ∃ l, (broadcast_to_room send_json room_id exclude_ws m).2 = cleanup l m.
Proof.
  unfold broadcast_to_room.
  destruct (sweep send_json exclude_ws (elements (get_connections room_id m)))
    as [sent disconnected].
  by eexists.
Qed.

Lemma join_room_connections e room_id user_name websocket m other ws :
  ws ∈ get_connections other (join_room e room_id user_name websocket m).2 ↔
  ws ∈ get_connections other m ∨
  (ws = websocket ∧ other = room_id ∧
   is_Some (join_room e room_id user_name websocket m).1).
Proof.
  assert (∀ c : gmap string (gset nat),
    ws ∈ default ∅ (conn_add room_id websocket c !! other) ↔
    ws ∈ default ∅ (c !! other) ∨ (ws = websocket ∧ other = room_id)) as Hadd.
  { intros c. unfold conn_add, conn_index.
    destruct (decide (other = room_id)) as [->|].
    - rewrite lookup_insert_eq. simpl. set_unfold. naive_solver.
    - rewrite lookup_insert_ne by done. naive_solver. }
  unfold join_room, get_connections.
  destruct (get_room room_id m) as [room|]; simpl; [|by naive_solver].
  destruct (Z.leb _ _); simpl; [by naive_solver|].
  match goal with |- context [match ?x with Some _ => _ | None => _ end] =>
    destruct x as [user|] end; simpl.
  { rewrite Hadd. naive_solver. }
  destruct (find_host user_name (Room.users room)) as [host|]; simpl.
  - destruct (user_rooms m !! User.id host); simpl; rewrite Hadd; naive_solver.
  - rewrite Hadd. naive_solver.
Qed.

Lemma join_room_rooms_nonempty e room_id user_name websocket m :
  rooms_nonempty m → rooms_nonempty (join_room e room_id user_name websocket m).2.
Proof.
  intros Hm. unfold join_room.
  destruct (get_room room_id m) as [room|] eqn:Hroom; simpl; [|done].
  destruct (Z.leb _ _); simpl; [done|].
  match goal with |- context [match ?x with Some _ => _ | None => _ end] =>
    destruct x as [user|] end; simpl; [done|].
  destruct (find_host user_name (Room.users room)) as [host|]; simpl.
  - by destruct (user_rooms m !! User.id host).
  - intros rid room'. unfold get_room. simpl.
    destruct (decide (rid = room_id)) as [->|].
    + rewrite lookup_insert_eq. intros [= <-]. simpl. apply od_set_nonempty.
    + rewrite lookup_insert_ne by done. apply Hm.
Qed.

Lemma join_room_rooms_registered e room_id user_name websocket m other :
  is_Some (get_room other m) →
  is_Some (rooms (join_room e room_id user_name websocket m).2 !! other).
Proof.
  intros Hother. unfold join_room.
  destruct (get_room room_id m) as [room|] eqn:Hroom; simpl; [|done].
  destruct (Z.leb _ _); simpl; [done|].
  match goal with |- context [match ?x with Some _ => _ | None => _ end] =>
    destruct x as [user|] end; simpl; [done|].
  destruct (find_host user_name (Room.users room)) as [host|]; simpl.
  - by destruct (user_rooms m !! User.id host).
  - apply lookup_insert_is_Some'. by right.
Qed.

Lemma rooms_nonempty_insert room_id room m :
  Room.users room ≠ [] → rooms_nonempty m →
  rooms_nonempty (set_rooms <[room_id := room]> m).
Proof.
  intros Hroom Hm rid room'. unfold get_room; simpl.
  destruct (decide (rid = room_id)) as [->|].
  - rewrite lookup_insert_eq. by intros [= <-].
  - rewrite lookup_insert_ne by done. apply Hm.
Qed.

Lemma create_room_rooms_nonempty e name host_name language code max_users is_public m :
  rooms_nonempty m →
  rooms_nonempty (create_room e name host_name language code max_users is_public m).2.
Proof.
  intros Hm. unfold create_room, get_user_color; simpl.
  apply (rooms_nonempty_insert _ _ (set_color_index S m)); [done|apply Hm].
Qed.

Lemma delete_room_rooms_nonempty room_id m :
  rooms_nonempty m → rooms_nonempty (delete_room room_id m).2.
Proof.
  intros Hm rid room. unfold get_room. rewrite delete_room_rooms.
  intros [_ Hroom]%lookup_delete_Some. by apply (Hm rid).
Qed.

Lemma main_delete_room_state room_id m :
  (Main.delete_room room_id m).2 = m ∨
  (Main.delete_room room_id m).2 = (delete_room room_id m).2.
Proof.
  unfold Main.delete_room, room_manager.get_room, room_manager.delete_room.
  destruct (get_room room_id m) as [room|]; [|by left].
  destruct (0 <? length (Room.users room)); [by left|].
  destruct (delete_room room_id m) as [[] m']; by right.
Qed.

Lemma main_create_room_state e request m :
  (Main.create_room e request m).2 = m ∨
  (Main.create_room e request m).2 =
    (create_room e (Main.name request) (Main.host_name request)
       (Main.language request) (Main.code request) (Main.max_users request)
       (Main.is_public request) m).2.
Proof.
  unfold Main.create_room, room_manager.create_room.
  destruct (Main.validate request); [|by left].
  right. by destruct (create_room _ _ _ _ _ _ _ _).
Qed.

(** ** Every registered room has a user *)

Lemma exec_rooms_nonempty o m : rooms_nonempty m → rooms_nonempty (exec o m).
Proof.
  intros Hm. destruct o; simpl.
  - by apply create_room_rooms_nonempty.
  - by apply join_room_rooms_nonempty.
  - by apply leave_room_rooms_nonempty.
  - unfold update_code. destruct (get_room room_id m) as [room|] eqn:E; [|done].
    apply rooms_nonempty_insert; [simpl|done]. by apply (Hm room_id).
  - unfold update_language. destruct (get_room room_id m) as [room|] eqn:E; [|done].
    apply rooms_nonempty_insert; [simpl|done]. by apply (Hm room_id).
  - by apply delete_room_rooms_nonempty.
  - destruct (broadcast_to_room_state send_json room_id exclude_ws m) as [l ->].
    by apply cleanup_rooms_nonempty.
  - destruct (main_create_room_state e request m) as [-> | ->]; [done|].
    by apply create_room_rooms_nonempty.
  - destruct (main_delete_room_state room_id m) as [-> | ->]; [done|].
    by apply delete_room_rooms_nonempty.
Qed.

Lemma run_rooms_nonempty ops m : rooms_nonempty m → rooms_nonempty (run ops m).
Proof.
  revert m. induction ops as [|o ops IH]; intros m Hm; simpl; [done|].
  by apply IH, exec_rooms_nonempty.
Qed.

Lemma reachable_rooms_nonempty m : reachable m → rooms_nonempty m.
Proof.
  intros [ops ->]. apply run_rooms_nonempty. intros rid room.
  unfold get_room, init; simpl. by rewrite lookup_empty.
Qed.

Lemma reachable_exec o m : reachable m → reachable (exec o m).
Proof.
  intros [ops ->]. exists (ops ++ [o])%list. unfold run. by rewrite foldl_app.
Qed.

(** ** Connection sets along a run *)

Lemma exec_connections o m other ws :
  ws ∈ get_connections other (exec o m) →
  ws ∈ get_connections other m ∨
  ∃ e user_name, o = OpJoin e other user_name ws.
Proof.
  destruct o; simpl.
  - unfold create_room, get_user_color, get_connections; simpl. by left.
  - intros [?|(-> & -> & _)]%join_room_connections; [by left|right; eauto].
  - intros H. left. by apply (leave_room_connections websocket m).
  - unfold update_code, get_connections.
    destruct (get_room room_id m); simpl; by left.
  - unfold update_language, get_connections.
    destruct (get_room room_id m); simpl; by left.
  - intros H. left. by apply (delete_room_connections room_id m).
  - destruct (broadcast_to_room_state send_json room_id exclude_ws m) as [l ->].
    intros H. left. by apply (cleanup_connections l m).
  - destruct (main_create_room_state e request m) as [-> | ->]; [by left|].
    unfold create_room, get_user_color, get_connections; simpl. by left.
  - destruct (main_delete_room_state room_id m) as [-> | ->]; [by left|].
    intros H. left. by apply (delete_room_connections room_id m).
Qed.

Lemma run_scoped_connections scope ops m :
  scoped scope ops →
  (∀ other ws, ws ∈ get_connections other m → other = scope ws) →
  ∀ other ws, ws ∈ get_connections other (run ops m) → other = scope ws.
Proof.
  revert m. induction ops as [|o ops IH]; intros m Hops Hm; simpl; [done|].
  apply Forall_cons in Hops as [Ho Hops]. apply IH; [done|].
  intros other ws [?|(e & user_name & ->)]%exec_connections; [by apply Hm|done].
Qed.

(** ** Room creation *)

(** C4. For every valid create-room request (name, host name, language,
    initial code, [max_users] in [2,50], visibility flag) creation succeeds:
    [create_room] returns a room that it has stored, the room has exactly one
    user, that user has [is_host = true], the room's [host_id] is that user's
    id, and the snapshot the endpoint answers with has [user_count = 1]. *)
Theorem create_room_single_host e request m :
  Main.validate request = true →
  ∃ room host m',
    create_room e (Main.name request) (Main.host_name request)
      (Main.language request) (Main.code request) (Main.max_users request)
      (Main.is_public request) m = (room, m') ∧
    Main.create_room e request m = (Main.RoomResponse (Room.to_dict room), m') ∧
    get_room (Room.id room) m' = Some room ∧
    Room.users room = [(User.id host, host)] ∧
    User.is_host host = true ∧
    Room.host_id room = User.id host ∧
    Room.s_users (Room.to_dict room) = [host] ∧
    Room.s_user_count (Room.to_dict room) = 1.
Proof.
  intros Hvalid. unfold Main.create_room, room_manager.create_room.
  rewrite Hvalid. unfold create_room, get_user_color, get_room; simpl.
  eexists _, _, _. split; [reflexivity|]. simpl.
  rewrite lookup_insert_eq. by repeat split.
Qed.

Lemma create_room_single_host_witness :
  ∃ room host m',
    create_room env_demo "demo" "Alice" "Python" "" 10 true init = (room, m') ∧
    Main.create_room env_demo (request_demo 10) init =
      (Main.RoomResponse (Room.to_dict room), m') ∧
    get_room (Room.id room) m' = Some room ∧
    Room.users room = [(User.id host, host)] ∧
    User.is_host host = true ∧
    Room.host_id room = User.id host ∧
    Room.s_users (Room.to_dict room) = [host] ∧
    Room.s_user_count (Room.to_dict room) = 1.
Proof. apply (create_room_single_host env_demo (request_demo 10) init). reflexivity. Defined.

(** C8. A create-room request whose [max_users] is outside [2,50] is refused
    as a validation error with the state untouched (no room stored, no user
    created, colour counter unchanged); a request whose [max_users] is inside
    [2,50], its names being non-empty, goes on to create and store a room. *)
Theorem create_room_bounds_validation e request m :
  ((Main.max_users request < 2 ∨ 50 < Main.max_users request)%Z →
   Main.create_room e request m = (Main.ValidationError, m)) ∧
  ((2 ≤ Main.max_users request ≤ 50)%Z →
   Main.name request ≠ "" → Main.host_name request ≠ "" →
   ∃ room m',
     Main.create_room e request m = (Main.RoomResponse (Room.to_dict room), m') ∧
     rooms m' = <[Room.id room := room]> (rooms m) ∧
     Room.max_users room = Main.max_users request ∧
     color_index m' = S (color_index m)).
Proof.
  unfold Main.create_room, Main.validate. split.
  - intros Hout.
    assert ((2 <=? Main.max_users request)%Z && (Main.max_users request <=? 50)%Z
            = false) as Hb.
    { apply andb_false_iff. rewrite Z.leb_gt, Z.leb_gt. lia. }
    by rewrite <- andb_assoc, Hb, andb_false_r.
  - intros [Hlo Hhi] Hname Hhost.
    assert (∀ s : string, s ≠ "" → (1 <=? String.length s) = true) as Hlen.
    { intros [|a s] Hs; [done|reflexivity]. }
    rewrite (Hlen _ Hname), (Hlen _ Hhost); simpl.
    apply Z.leb_le in Hlo as ->. apply Z.leb_le in Hhi as ->. simpl.
    unfold room_manager.create_room, create_room, get_user_color; simpl.
    by eexists _, _.
Qed.

Lemma create_room_bounds_validation_witness :
  Main.create_room env_demo (request_demo 51) init = (Main.ValidationError, init) ∧
  Main.create_room env_demo (request_demo 1) init = (Main.ValidationError, init) ∧
  ∃ room m',
    Main.create_room env_demo (request_demo 2) init =
      (Main.RoomResponse (Room.to_dict room), m') ∧
    rooms m' = <[Room.id room := room]> (rooms init) ∧
    Room.max_users room = 2%Z ∧
    color_index m' = S (color_index init).
Proof.
  split; [|split].
  - apply (proj1 (create_room_bounds_validation env_demo (request_demo 51) init)).
    simpl. lia.
  - apply (proj1 (create_room_bounds_validation env_demo (request_demo 1) init)).
    simpl. lia.
  - apply (proj2 (create_room_bounds_validation env_demo (request_demo 2) init)).
    + simpl. lia.
    + discriminate.
    + discriminate.
Defined.

(** ** Code and language updates *)

(** C9. [update_code] and [update_language] return false and leave the whole
    state as it is when the room is absent; when the room exists they return
    true and replace only its [code] (resp. [language]) by the given value:
    the other fields of the room, its users, the connection sets, the two
    back-reference maps, the colour counter and every other room stay. *)
Theorem update_code_language_frame room_id value m :
  (get_room room_id m = None →
   update_code room_id value m = (false, m) ∧
   update_language room_id value m = (false, m)) ∧
  (∀ room, get_room room_id m = Some room →
   ∃ room_c m_c room_l m_l,
     update_code room_id value m = (true, m_c) ∧
     get_room room_id m_c = Some room_c ∧
     Room.code room_c = value ∧ same_but_code room room_c ∧
     same_but_room room_id m m_c ∧
     update_language room_id value m = (true, m_l) ∧
     get_room room_id m_l = Some room_l ∧
     Room.language room_l = value ∧ same_but_language room room_l ∧
     same_but_room room_id m m_l).
Proof.
  unfold update_code, update_language. split.
  - by intros ->.
  - intros room ->.
    exists (Room.set_code value room), (set_rooms <[room_id := Room.set_code value room]> m),
      (Room.set_language value room),
      (set_rooms <[room_id := Room.set_language value room]> m).
    unfold get_room, same_but_code, same_but_language, same_but_room; simpl.
    rewrite !lookup_insert_eq.
    repeat split; try done; intros other Hother; by rewrite lookup_insert_ne.
Qed.

Lemma update_code_language_frame_witness :
  update_code "no-room" "print(1)" init = (false, init) ∧
  update_language "no-room" "Rust" init = (false, init) ∧
  ∃ m_c m_l,
    update_code "3f2a9c1e" "print(1)" (run full_room_run init) = (true, m_c) ∧
    (Room.code <$> get_room "3f2a9c1e" m_c) = Some "print(1)" ∧
    same_but_room "3f2a9c1e" (run full_room_run init) m_c ∧
    update_language "3f2a9c1e" "Rust" (run full_room_run init) = (true, m_l) ∧
    (Room.language <$> get_room "3f2a9c1e" m_l) = Some "Rust" ∧
    same_but_room "3f2a9c1e" (run full_room_run init) m_l.
Proof.
  destruct (update_code_language_frame "no-room" "print(1)" init) as [Habsent _].
  destruct (update_code_language_frame "no-room" "Rust" init) as [Habsent' _].
  destruct (Habsent eq_refl) as [Hc _]. destruct (Habsent' eq_refl) as [_ Hl].
  split; [exact Hc|]. split; [exact Hl|].
  destruct (update_code_language_frame "3f2a9c1e" "print(1)" (run full_room_run init))
    as [_ Hpresent].
  destruct (update_code_language_frame "3f2a9c1e" "Rust" (run full_room_run init))
    as [_ Hpresent'].
  destruct (get_room "3f2a9c1e" (run full_room_run init)) as [room|] eqn:Hroom;
    [|vm_compute in Hroom; discriminate].
  destruct (Hpresent room eq_refl) as (rc & m_c & _ & _ & Hu & Hg & Hv & _ & Hf & _).
  destruct (Hpresent' room eq_refl) as (_ & _ & rl & m_l & _ & _ & _ & _ & _ & Hu' & Hg' & Hv' & _ & Hf').
  exists m_c, m_l. rewrite Hg, Hg'. simpl. rewrite Hv, Hv'. done.
Defined.

(** ** Leaving *)

(** C6. [leave_room] on a websocket with no associated user returns [None]
    and leaves the whole state (rooms, connection sets, both back-reference
    maps) as it is; whenever it returns [None] the state is unchanged; and
    after a leave that returned a result, the websocket has no associated
    user, so a second leave on it returns [None] and changes nothing. *)
Theorem leave_room_idempotent websocket m :
  (ws_users m !! websocket = None → leave_room websocket m = (None, m)) ∧
  (∀ m', leave_room websocket m = (None, m') → m' = m) ∧
  (∀ res m', leave_room websocket m = (Some res, m') →
     ws_users m' !! websocket = None ∧ leave_room websocket m' = (None, m')).
Proof.
  split; [|split].
  - intros Hws. unfold leave_room. by rewrite Hws.
  - apply leave_room_none.
  - intros res m' Hleave.
    pose proof (leave_room_ws_users _ _ _ _ Hleave) as Hws.
    split; [done|]. unfold leave_room. by rewrite Hws.
Qed.

Lemma leave_room_idempotent_witness :
  leave_room 9 (run full_room_run init) = (None, run full_room_run init) ∧
  ∃ res m',
    leave_room 7 (run full_room_run init) = (Some res, m') ∧
    ws_users m' !! 7 = None ∧ leave_room 7 m' = (None, m').
Proof.
  split.
  - apply (proj1 (leave_room_idempotent 9 (run full_room_run init))).
    vm_compute. reflexivity.
  - destruct (leave_room 7 (run full_room_run init)) as [[res|] m'] eqn:Hleave;
      [|vm_compute in Hleave; discriminate].
    exists res, m'. split; [reflexivity|].
    apply (proj2 (proj2 (leave_room_idempotent 7 (run full_room_run init))) res m').
    exact Hleave.
Defined.

(** ** Joining *)

Lemma find_host_singleton user_name user_id host :
  User.name host = user_name → User.is_host host = true →
  find_host user_name [(user_id, host)] = Some host.
Proof.
  intros <- Hhost. unfold find_host; simpl.
  by rewrite String.eqb_refl, Hhost.
Qed.

(** One join under the host's name into a room whose only user is the host,
    below capacity: the host is returned, and neither the rooms nor the
    colour counter change. *)
Lemma join_room_host_only e room_id user_name websocket m room user_id host :
  get_room room_id m = Some room →
  Room.users room = [(user_id, host)] →
  User.is_host host = true → User.name host = user_name →
  (1 < Room.max_users room)%Z →
  ∃ m', join_room e room_id user_name websocket m = (Some host, m') ∧
        rooms m' = rooms m ∧ color_index m' = color_index m.
Proof.
  intros Hroom Husers Hhost Hname Hmax. unfold join_room.
  rewrite Hroom, Husers. cbn [length].
  destruct (Z.leb_spec (Room.max_users room) (Z.of_nat 1)) as [?|_]; [lia|].
  destruct (ws_users m !! websocket) as [existing|]; simpl.
  - destruct (truthy existing); simpl.
    + case_decide; simpl; [by eexists|].
      rewrite (find_host_singleton user_name user_id host Hname Hhost).
      by destruct (user_rooms m !! User.id host); eexists.
    + rewrite (find_host_singleton user_name user_id host Hname Hhost).
      by destruct (user_rooms m !! User.id host); eexists.
  - rewrite (find_host_singleton user_name user_id host Hname Hhost).
    by destruct (user_rooms m !! User.id host); eexists.
Qed.

(** C5. If a room below capacity holds, as its only user, a host of display
    name [N], then two joins in a row under the name [N] from two websockets
    both return that same host user (same id, equal in every field); the
    room, with its user mapping of size 1, is the same after each of them,
    and no colour is drawn for a new user. *)
Theorem host_rejoin_same_user e1 e2 room_id user_name ws1 ws2 m room user_id host :
  get_room room_id m = Some room →
  Room.users room = [(user_id, host)] →
  User.is_host host = true → User.name host = user_name →
  (Z.of_nat (length (Room.users room)) < Room.max_users room)%Z →
  ∃ m1 m2,
    join_room e1 room_id user_name ws1 m = (Some host, m1) ∧
    join_room e2 room_id user_name ws2 m1 = (Some host, m2) ∧
    get_room room_id m1 = Some room ∧ get_room room_id m2 = Some room ∧
    length (Room.users room) = 1 ∧
    rooms m1 = rooms m ∧ rooms m2 = rooms m ∧
    color_index m2 = color_index m.
Proof.
  intros Hroom Husers Hhost Hname Hmax.
  assert (1 < Room.max_users room)%Z as Hmax' by (rewrite Husers in Hmax; simpl in Hmax; lia).
  destruct (join_room_host_only e1 room_id user_name ws1 m room user_id host)
    as (m1 & Hj1 & Hr1 & Hc1); try done.
  assert (get_room room_id m1 = Some room) as Hroom1
    by (unfold get_room in *; by rewrite Hr1).
  destruct (join_room_host_only e2 room_id user_name ws2 m1 room user_id host)
    as (m2 & Hj2 & Hr2 & Hc2); try done.
  exists m1, m2. repeat split; try done.
  - unfold get_room in *. by rewrite Hr2.
  - by rewrite Husers.
  - by rewrite Hr2.
  - by rewrite Hc2.
Qed.

Lemma host_rejoin_same_user_witness :
  ∃ host m1 m2,
    User.name host = "Alice" ∧ User.is_host host = true ∧
    join_room env_alice2 "3f2a9c1e" "Alice" 1
      (run [OpPostCreate env_demo (request_demo 10)] init) = (Some host, m1) ∧
    join_room env_bob "3f2a9c1e" "Alice" 2 m1 = (Some host, m2) ∧
    (length ∘ Room.users <$> get_room "3f2a9c1e" m1) = Some 1 ∧
    (length ∘ Room.users <$> get_room "3f2a9c1e" m2) = Some 1.
Proof.
  pose (m := run [OpPostCreate env_demo (request_demo 10)] init).
  destruct (get_room "3f2a9c1e" m) as [room|] eqn:Hroom;
    [|vm_compute in Hroom; discriminate].
  assert (Some room = Some room) as Hsame by reflexivity.
  rewrite <- Hroom in Hsame at 1. vm_compute in Hsame.
  injection Hsame as Hsame.
  destruct (host_rejoin_same_user env_alice2 env_bob "3f2a9c1e" "Alice" 1 2 m room
              "a1b2c3d4-0000-4000-8000-00000000000a"
              (User.mk "a1b2c3d4-0000-4000-8000-00000000000a" "Alice" "#FF6B6B" true
                 "2024-05-01T10:00:00.000001"))
    as (m1 & m2 & Hj1 & Hj2 & Hg1 & Hg2 & Hlen & _).
  - exact Hroom.
  - rewrite <- Hsame. reflexivity.
  - reflexivity.
  - reflexivity.
  - rewrite <- Hsame. simpl. lia.
  - eexists _, m1, m2. split; [|split; [|split; [exact Hj1|split; [exact Hj2|]]]];
      [reflexivity|reflexivity|].
    rewrite Hg1, Hg2. simpl. by rewrite Hlen.
Defined.

Lemma truthy_ne (s : string) : s ≠ "" → truthy s = true.
Proof. intros Hs. unfold truthy. by apply negb_true_iff, String.eqb_neq. Qed.

(** C1, as the code has it.  In a room at capacity [join_room] returns [None]
    on every path, the reconnect and the host re-join included, and changes
    nothing: the capacity test comes first.  Below capacity a websocket that
    is already associated with a member of the room gets that member back,
    and otherwise a join under the name of a host of the room gets that host
    back; neither touches the rooms. *)
Theorem join_room_capacity_first e room_id user_name websocket m room :
  get_room room_id m = Some room →
  (full room → join_room e room_id user_name websocket m = (None, m)) ∧
  (¬ full room →
   ∀ existing user,
     ws_users m !! websocket = Some existing → existing ≠ "" →
     od_get existing (Room.users room) = Some user →
     ∃ m', join_room e room_id user_name websocket m = (Some user, m') ∧
           rooms m' = rooms m) ∧
  (¬ full room →
   (∀ existing, ws_users m !! websocket = Some existing →
                existing = "" ∨ od_get existing (Room.users room) = None) →
   ∀ host, find_host user_name (Room.users room) = Some host →
     ∃ m', join_room e room_id user_name websocket m = (Some host, m') ∧
           rooms m' = rooms m).
Proof.
  intros Hroom. unfold full, join_room. rewrite Hroom.
  destruct (Z.leb_spec (Room.max_users room) (Z.of_nat (length (Room.users room))))
    as [Hfull|Hfree].
  { split; [done|]. split; intros Hnot; lia. }
  split; [lia|]. split; intros _.
  - intros existing user -> Hne ->. rewrite (truthy_ne _ Hne). by eexists.
  - intros Hnone host ->.
    destruct (ws_users m !! websocket) as [existing|]; simpl.
    + destruct (Hnone existing eq_refl) as [-> | ->]; simpl.
      * by destruct (user_rooms m !! User.id host); eexists.
      * destruct (truthy existing);
          by destruct (user_rooms m !! User.id host); eexists.
    + by destruct (user_rooms m !! User.id host); eexists.
Qed.

Lemma join_room_capacity_first_witness :
  join_room env_alice2 "3f2a9c1e" "Alice" 8 (run full_room_run init)
    = (None, run full_room_run init) ∧
  (∃ user m', join_room env_alice2 "3f2a9c1e" "Bob" 3 (run host_twice_run init)
              = (Some user, m') ∧ User.name user = "Bob") ∧
  (∃ host m', join_room env_alice2 "3f2a9c1e" "Alice" 1
                (run [OpPostCreate env_demo (request_demo 10)] init)
              = (Some host, m') ∧ User.is_host host = true).
Proof.
  split; [|split].
  - destruct (get_room "3f2a9c1e" (run full_room_run init)) as [room|] eqn:Hroom;
      [|vm_compute in Hroom; discriminate].
    apply (proj1 (join_room_capacity_first env_alice2 "3f2a9c1e" "Alice" 8
                    (run full_room_run init) room Hroom)).
    assert (Some room = Some room) as Hsame by reflexivity.
    rewrite <- Hroom in Hsame at 1. vm_compute in Hsame.
    injection Hsame as <-. unfold full. simpl. lia.
  - destruct (get_room "3f2a9c1e" (run host_twice_run init)) as [room|] eqn:Hroom;
      [|vm_compute in Hroom; discriminate].
    assert (Some room = Some room) as Hsame by reflexivity.
    rewrite <- Hroom in Hsame at 1. vm_compute in Hsame.
    injection Hsame as Hsame.
    destruct (proj1 (proj2 (join_room_capacity_first env_alice2 "3f2a9c1e" "Bob" 3
                (run host_twice_run init) room Hroom)))
      with (existing := "a1b2c3d4-0000-4000-8000-00000000000b")
           (user := User.mk "a1b2c3d4-0000-4000-8000-00000000000b" "Bob" "#4ECDC4"
                      false "2024-05-01T10:02:00.000001")
      as (m' & Hjoin & _).
    + rewrite <- Hsame. unfold full. simpl. lia.
    + vm_compute. reflexivity.
    + discriminate.
    + rewrite <- Hsame. reflexivity.
    + eexists _, m'. split; [exact Hjoin|reflexivity].
  - pose (m := run [OpPostCreate env_demo (request_demo 10)] init).
    destruct (get_room "3f2a9c1e" m) as [room|] eqn:Hroom;
      [|vm_compute in Hroom; discriminate].
    assert (Some room = Some room) as Hsame by reflexivity.
    rewrite <- Hroom in Hsame at 1. vm_compute in Hsame.
    injection Hsame as Hsame.
    destruct (proj2 (proj2 (join_room_capacity_first env_alice2 "3f2a9c1e" "Alice" 1
                m room Hroom)))
      with (host := User.mk "a1b2c3d4-0000-4000-8000-00000000000a" "Alice" "#FF6B6B"
                      true "2024-05-01T10:00:00.000001")
      as (m' & Hjoin & _).
    + rewrite <- Hsame. unfold full. simpl. lia.
    + intros existing Hex. vm_compute in Hex. discriminate.
    + rewrite <- Hsame. reflexivity.
    + eexists _, m'. split; [exact Hjoin|reflexivity].
Defined.

(** C1, as the claim has it, fails.  The room of capacity 2 holds its host
    Alice and Bob, who joined on websocket 7.  A join under the host's name
    and a join of websocket 7 again are both refused. *)
Lemma join_full_room_refuses_host_and_reconnect :
  (∃ room user_id,
     get_room "3f2a9c1e" (run full_room_run init) = Some room ∧
     Z.of_nat (length (Room.users room)) = Room.max_users room ∧
     is_Some (find_host "Alice" (Room.users room)) ∧
     ws_users (run full_room_run init) !! 7 = Some user_id ∧
     user_id ≠ "" ∧
     is_Some (od_get user_id (Room.users room))) ∧
  (join_room env_alice2 "3f2a9c1e" "Alice" 8 (run full_room_run init)).1 = None ∧
  (join_room env_alice2 "3f2a9c1e" "Bob" 7 (run full_room_run init)).1 = None.
Proof.
  split; [|split; vm_compute; reflexivity].
  eexists _, _. split; [vm_compute; reflexivity|].
  split; [reflexivity|]. split; [by eexists|].
  split; [vm_compute; reflexivity|]. split; [discriminate|by eexists].
Qed.

(** ** One room per connection *)

(** C3, as the code has it.  [join_room] only ever adds the websocket to the
    set of the room joined and detaches it from no other room.  So a
    websocket is in at most one connection set as long as all its joins name
    one room id, which is what the handler of [/ws/{room_id}] sees to. *)
Theorem scoped_connection_one_room :
  (∀ scope ops, scoped scope ops →
     ∀ websocket room_a room_b,
       attached websocket room_a (run ops init) →
       attached websocket room_b (run ops init) → room_a = room_b) ∧
  (∀ e room_id user_name websocket m other ws,
     attached ws other m →
     attached ws other (join_room e room_id user_name websocket m).2).
Proof.
  split.
  - intros scope ops Hops ws room_a room_b Ha Hb.
    assert (∀ other ws', ws' ∈ get_connections other (run ops init) →
                         other = scope ws') as Hinv.
    { apply run_scoped_connections; [done|].
      intros other ws'. unfold get_connections, init; simpl.
      rewrite lookup_empty. simpl. by intros ?%not_elem_of_empty. }
    by rewrite (Hinv _ _ Ha), (Hinv _ _ Hb).
  - intros e room_id user_name websocket m other ws Hin.
    apply join_room_connections. by left.
Qed.

Lemma scoped_connection_one_room_witness :
  "3f2a9c1e" = "3f2a9c1e" ∧
  attached 7 "3f2a9c1e"
    (join_room env_alice2 "77e0d5b2" "Bob" 7 (run two_rooms_run init)).2.
Proof.
  assert (attached 7 "3f2a9c1e" (run two_rooms_run init)) as Hin.
  { in_connections. }
  split.
  - apply (proj1 scoped_connection_one_room (λ _, "3f2a9c1e") two_rooms_run)
      with (websocket := 7).
    + repeat constructor.
    + exact Hin.
    + exact Hin.
  - apply (proj2 scoped_connection_one_room). exact Hin.
Defined.

(** C3, as the claim has it, fails.  Websocket 7 is in the connection set of
    room 3f2a9c1e; it then joins room 77e0d5b2, with success, and is in the
    connection sets of both rooms. *)
Lemma join_second_room_keeps_first :
  attached 7 "3f2a9c1e" (run two_rooms_run init) ∧
  is_Some (join_room env_alice2 "77e0d5b2" "Bob" 7 (run two_rooms_run init)).1 ∧
  attached 7 "3f2a9c1e"
    (join_room env_alice2 "77e0d5b2" "Bob" 7 (run two_rooms_run init)).2 ∧
  attached 7 "77e0d5b2"
    (join_room env_alice2 "77e0d5b2" "Bob" 7 (run two_rooms_run init)).2 ∧
  "3f2a9c1e" ≠ "77e0d5b2".
Proof.
  split; [in_connections|].
  split; [vm_compute; by eexists|].
  split; [in_connections|].
  split; [in_connections|discriminate].
Qed.

(** ** Rooms and their users *)

(** The registry after a leave that gets as far as removing the user: the
    room is dropped when no user is left and holds the remaining users
    otherwise; no other entry changes. *)
Lemma leave_room_registry websocket m user_id room_id room :
  ws_users m !! websocket = Some user_id → user_id ≠ "" →
  user_rooms m !! user_id = Some room_id → room_id ≠ "" →
  get_room room_id m = Some room →
  ∃ m', leave_room websocket m =
          (Some (room_id, od_get user_id (Room.users room)), m') ∧
        rooms m' =
          if decide ((od_pop user_id (Room.users room)).2 = [])
          then delete room_id (rooms m)
          else <[room_id := Room.set_users (od_pop user_id (Room.users room)).2 room]>
                 (rooms m).
Proof.
  intros Hws Huid Hur Hrid Hroom. unfold leave_room.
  rewrite Hws, (truthy_ne _ Huid), Hur, (truthy_ne _ Hrid), Hroom. cbn [negb].
  destruct (od_pop user_id (Room.users room)) as [user rest] eqn:Hpop.
  assert (user = od_get user_id (Room.users room)) as ->.
  { change user with (user, rest).1. rewrite <- Hpop.
    clear. induction (Room.users room) as [|[k v] d IH]; simpl; [done|].
    case_decide; [done|]. by destruct (od_pop user_id d). }
  eexists. split; [reflexivity|]. cbn [snd].
  destruct rest as [|entry rest]; simpl.
  - rewrite delete_room_rooms. simpl. apply delete_insert_eq.
  - done.
Qed.

(** A leave drops a room from the registry only when it has removed the
    last user of that room. *)
Lemma leave_room_unregisters websocket m res m' room_id :
  leave_room websocket m = (res, m') →
  is_Some (get_room room_id m) → get_room room_id m' = None →
  ∃ user_id room,
    ws_users m !! websocket = Some user_id ∧
    get_room room_id m = Some room ∧
    res = Some (room_id, (od_pop user_id (Room.users room)).1) ∧
    (od_pop user_id (Room.users room)).2 = [].
Proof.
  intros Hleave [room0 Hroom0] Hgone.
  destruct (leave_room_cases websocket m)
    as [Hnone|(u & r & room & Hws & _ & Hroom & Hsome)].
  { rewrite Hnone in Hleave. injection Hleave as _ <-. congruence. }
  rewrite Hsome in Hleave. injection Hleave as <- <-.
  revert Hgone. unfold get_room in *.
  destruct (od_pop u (Room.users room)).2 as [|entry rest] eqn:Hrest; simpl.
  - rewrite delete_room_rooms. simpl. rewrite delete_insert_eq.
    intros Hgone. apply lookup_delete_None in Hgone as [->|Hgone]; [|congruence].
    exists u, room. by rewrite Hrest.
  - destruct (decide (room_id = r)) as [->|Hne].
    + by rewrite lookup_insert_eq.
    + rewrite lookup_insert_ne by done. congruence.
Qed.

Lemma main_delete_room_nonempty room_id m :
  rooms_nonempty m → (Main.delete_room room_id m).2 = m.
Proof.
  intros Hne. unfold Main.delete_room, room_manager.get_room.
  destruct (get_room room_id m) as [room|] eqn:Hroom; [|done].
  specialize (Hne room_id room Hroom).
  destruct (Room.users room); [done|reflexivity].
Qed.

(** C2. In every reachable state a room id is registered if and only if it
    is registered with a non-empty user mapping.  A room is created with one
    user and registered.  A room with users stays registered: no call other
    than a leave, the clean-up of a broadcast or [delete_room] on its id
    takes a room out of the registry, and a leave takes a room out only when
    it has removed its last user.  A leave on a websocket whose user has a
    membership record removes that user; it deletes the room in the same
    call if no user is left, so that [get_room] and the fetch endpoint find
    nothing afterwards, and otherwise keeps the room with the remaining
    users; the other rooms stay as they are. *)
Theorem room_registered_iff_nonempty m :
  reachable m →
  (∀ room_id,
     is_Some (get_room room_id m) ↔
     ∃ room, get_room room_id m = Some room ∧ 0 < length (Room.users room)) ∧
  (∀ e name host_name language code max_users is_public,
     length (Room.users
       (create_room e name host_name language code max_users is_public m).1) = 1 ∧
     get_room
       (Room.id (create_room e name host_name language code max_users is_public m).1)
       (create_room e name host_name language code max_users is_public m).2 =
     Some (create_room e name host_name language code max_users is_public m).1) ∧
  (∀ websocket room_id user m' room,
     leave_room websocket m = (Some (room_id, Some user), m') →
     get_room room_id m = Some room →
     length (Room.users room) = 1 →
     get_room room_id m' = None ∧
     Main.get_room room_id m' = Main.HTTPException 404 "Room not found") ∧
  (∀ o room_id,
     is_Some (get_room room_id m) → get_room room_id (exec o m) = None →
     (∃ websocket, o = OpLeave websocket) ∨
     (∃ send_json room_id' exclude_ws, o = OpBroadcast send_json room_id' exclude_ws) ∨
     o = OpDeleteRoom room_id) ∧
  (∀ websocket res m' room_id,
     leave_room websocket m = (res, m') →
     is_Some (get_room room_id m) → get_room room_id m' = None →
     ∃ user_id room,
       ws_users m !! websocket = Some user_id ∧
       get_room room_id m = Some room ∧
       res = Some (room_id, (od_pop user_id (Room.users room)).1) ∧
       (od_pop user_id (Room.users room)).2 = []) ∧
  (∀ websocket user_id room_id room,
     ws_users m !! websocket = Some user_id → user_id ≠ "" →
     user_rooms m !! user_id = Some room_id → room_id ≠ "" →
     get_room room_id m = Some room →
     ∃ m',
       leave_room websocket m =
         (Some (room_id, od_get user_id (Room.users room)), m') ∧
       ((od_pop user_id (Room.users room)).2 = [] →
        get_room room_id m' = None ∧
        Main.get_room room_id m' = Main.HTTPException 404 "Room not found") ∧
       ((od_pop user_id (Room.users room)).2 ≠ [] →
        get_room room_id m' =
          Some (Room.set_users (od_pop user_id (Room.users room)).2 room)) ∧
       (∀ other, other ≠ room_id → get_room other m' = get_room other m)).
Proof.
  intros Hm. pose proof (reachable_rooms_nonempty m Hm) as Hne.
  split; [|split; [|split; [|split; [|split]]]].
  - intros room_id. split.
    + intros [room Hroom]. exists room. split; [done|].
      specialize (Hne room_id room Hroom).
      destruct (Room.users room); [done|simpl; lia].
    + intros (room & Hroom & _). by exists room.
  - intros. split; [done|].
    unfold create_room, get_user_color, get_room; simpl. apply lookup_insert_eq.
  - intros websocket room_id user m' room Hleave Hroom Hlen.
    destruct (leave_room_cases websocket m)
      as [Hnone|(u & r & room' & _ & _ & Hroom' & Hsome)]; [congruence|].
    rewrite Hsome in Hleave. injection Hleave as -> Hpop <-.
    rewrite Hroom in Hroom'. injection Hroom' as <-.
    destruct (od_pop u (Room.users room)) as [res rest] eqn:Hod.
    simpl in Hpop; subst res.
    rewrite (od_pop_last _ _ _ _ Hlen Hod). simpl.
    assert (get_room room_id
              (delete_room room_id (left_state websocket u room_id room m)).2 = None)
      as Hgone.
    { unfold get_room. rewrite delete_room_rooms. apply lookup_delete_eq. }
    split; [done|].
    unfold Main.get_room, room_manager.get_room. by rewrite Hgone.
  - intros o room_id [room Hroom] Hgone. unfold get_room in *.
    destruct o; simpl in Hgone.
    + unfold create_room, get_user_color in Hgone; simpl in Hgone.
      apply lookup_insert_None in Hgone as [Hgone _]. congruence.
    + exfalso. revert Hgone.
      destruct (join_room_rooms_registered e room_id0 user_name websocket m room_id)
        as [room' ->]; [by eexists|done].
    + left. by eexists.
    + exfalso. revert Hgone. unfold update_code, get_room.
      destruct (rooms m !! room_id0); simpl; [|congruence].
      intros [Hgone _]%lookup_insert_None. congruence.
    + exfalso. revert Hgone. unfold update_language, get_room.
      destruct (rooms m !! room_id0); simpl; [|congruence].
      intros [Hgone _]%lookup_insert_None. congruence.
    + right. right. rewrite delete_room_rooms in Hgone.
      apply lookup_delete_None in Hgone as [->|Hgone]; [done|congruence].
    + right. left. by eexists _, _, _.
    + exfalso. revert Hgone.
      destruct (main_create_room_state e request m) as [-> | ->]; [congruence|].
      unfold create_room, get_user_color; simpl.
      intros [Hgone _]%lookup_insert_None. congruence.
    + exfalso. rewrite main_delete_room_nonempty in Hgone by done. congruence.
  - intros websocket res m' room_id. apply leave_room_unregisters.
  - intros websocket user_id room_id room Hws Huid Hur Hrid Hroom.
    destruct (leave_room_registry websocket m user_id room_id room)
      as (m' & Hleave & Hrooms); try done.
    exists m'. split; [done|]. unfold Main.get_room, room_manager.get_room, get_room.
    rewrite Hrooms. split; [|split].
    + intros Hrest. rewrite decide_True by done. by rewrite lookup_delete_eq.
    + intros Hrest. rewrite decide_False by done. apply lookup_insert_eq.
    + intros other Hother. case_decide.
      * by rewrite lookup_delete_ne.
      * by rewrite lookup_insert_ne.
Qed.

Lemma room_registered_iff_nonempty_witness :
  (is_Some (get_room "3f2a9c1e" (run host_twice_run init)) ↔
   ∃ room, get_room "3f2a9c1e" (run host_twice_run init) = Some room ∧
           0 < length (Room.users room)) ∧
  get_room "3f2a9c1e" (leave_room 3 (run host_twice_run init)).2 = None ∧
  (∃ room res m',
     get_room "3f2a9c1e" (run full_room_run init) = Some room ∧
     leave_room 7 (run full_room_run init) = (Some ("3f2a9c1e", res), m') ∧
     get_room "3f2a9c1e" m' =
       Some (Room.set_users
               (od_pop "a1b2c3d4-0000-4000-8000-00000000000b" (Room.users room)).2
               room)).
Proof.
  assert (reachable (run host_twice_run init)) as Hm by (by eexists).
  assert (∃ user room,
            leave_room 3 (run host_twice_run init) =
              (Some ("3f2a9c1e", Some user),
               (leave_room 3 (run host_twice_run init)).2) ∧
            get_room "3f2a9c1e" (run host_twice_run init) = Some room ∧
            length (Room.users room) = 1)
    as (user & room & Hleave & Hroom & Hlen).
  { eexists _, _. split; [vm_compute; reflexivity|].
    split; [vm_compute; reflexivity|reflexivity]. }
  destruct (room_registered_iff_nonempty _ Hm) as (Hiff & _ & Hlast & _).
  split; [apply Hiff|].
  split; [exact (proj1 (Hlast 3 "3f2a9c1e" user _ room Hleave Hroom Hlen))|].
  assert (reachable (run full_room_run init)) as Hm' by (by eexists).
  destruct (room_registered_iff_nonempty _ Hm') as (_ & _ & _ & _ & _ & Hleaves).
  assert (∃ room', get_room "3f2a9c1e" (run full_room_run init) = Some room' ∧
                   (od_pop "a1b2c3d4-0000-4000-8000-00000000000b"
                      (Room.users room')).2 ≠ [])
    as (room' & Hroom' & Hrest).
  { eexists. split; [vm_compute; reflexivity|]. discriminate. }
  destruct (Hleaves 7 "a1b2c3d4-0000-4000-8000-00000000000b" "3f2a9c1e" room')
    as (m' & Hleave' & _ & Hkept & _).
  - vm_compute. reflexivity.
  - discriminate.
  - vm_compute. reflexivity.
  - discriminate.
  - exact Hroom'.
  - exists room', (od_get "a1b2c3d4-0000-4000-8000-00000000000b" (Room.users room')), m'.
    split; [exact Hroom'|]. split; [exact Hleave'|].
    exact (Hkept Hrest).
Defined.

(** C10. Every room in the registry has at least one user in every reachable
    state; so the delete endpoint answers not-found for an id that is not
    registered and forbidden for one that is, and in both cases leaves the
    state as it is: its branch that deletes is never taken. *)
Theorem delete_endpoint_never_deletes m :
  reachable m →
  (∀ room_id room, get_room room_id m = Some room → 1 ≤ length (Room.users room)) ∧
  (∀ room_id,
     (get_room room_id m = None ∧
      Main.delete_room room_id m = (Main.HTTPException 404 "Room not found", m)) ∨
     (is_Some (get_room room_id m) ∧
      Main.delete_room room_id m =
        (Main.HTTPException 403 "Cannot delete room with active users", m))).
Proof.
  intros Hm. pose proof (reachable_rooms_nonempty m Hm) as Hne.
  assert (∀ room_id room, get_room room_id m = Some room →
                          1 ≤ length (Room.users room)) as Hlen.
  { intros room_id room Hroom. specialize (Hne room_id room Hroom).
    destruct (Room.users room); [done|simpl; lia]. }
  split; [done|]. intros room_id.
  unfold Main.delete_room, room_manager.get_room.
  destruct (get_room room_id m) as [room|] eqn:Hroom; [right|by left].
  split; [by eexists|].
  specialize (Hlen room_id room Hroom).
  destruct (Nat.ltb_spec 0 (length (Room.users room))); [done|lia].
Qed.

Lemma delete_endpoint_never_deletes_witness :
  Main.delete_room "3f2a9c1e" (run host_twice_run init) =
    (Main.HTTPException 403 "Cannot delete room with active users",
     run host_twice_run init) ∧
  Main.delete_room "77e0d5b2" (run host_twice_run init) =
    (Main.HTTPException 404 "Room not found", run host_twice_run init).
Proof.
  assert (reachable (run host_twice_run init)) as Hm by (by eexists).
  destruct (delete_endpoint_never_deletes _ Hm) as [_ Hdel].
  split.
  - destruct (Hdel "3f2a9c1e") as [[Hnone _]|[_ Heq]];
      [vm_compute in Hnone; discriminate|exact Heq].
  - destruct (Hdel "77e0d5b2") as [[_ Heq]|[[room Hsome] _]];
      [exact Heq|vm_compute in Hsome; discriminate].
Defined.

(** ** Broadcast *)

(** The sweep calls [send_json] on every websocket of the list but the
    excluded one, whatever the sends before it did, and collects exactly the
    websockets on which it raised. *)
Lemma sweep_spec send_json exclude_ws l ws :
  (ws ∈ (sweep send_json exclude_ws l).1 ↔ ws ∈ l ∧ Some ws ≠ exclude_ws) ∧
  (ws ∈ (sweep send_json exclude_ws l).2 ↔
   ws ∈ l ∧ Some ws ≠ exclude_ws ∧ send_json ws = false).
Proof.
  induction l as [|x l [IH1 IH2]]; simpl.
  - split; split; try (by intros ?%elem_of_nil); try (by intros [?%elem_of_nil _]).
    by intros ?%not_elem_of_empty.
  - destruct (sweep send_json exclude_ws l) as [sent disconnected]; simpl in *.
    case_bool_decide as Hex.
    + simpl. rewrite IH1, IH2, !elem_of_cons. naive_solver.
    + destruct (send_json x) eqn:Hsend; simpl;
        rewrite ?elem_of_union, ?elem_of_singleton, ?elem_of_cons, ?IH1, ?IH2;
        intuition (subst; congruence).
Qed.

(** Every websocket of the room but the excluded one is sent to. *)
Lemma broadcast_attempts_all send_json room_id exclude_ws m ws :
  ws ∈ (broadcast_to_room send_json room_id exclude_ws m).1 ↔
  attached ws room_id m ∧ Some ws ≠ exclude_ws.
Proof.
  unfold broadcast_to_room, attached.
  pose proof (sweep_spec send_json exclude_ws
                (elements (get_connections room_id m)) ws) as [Hsent _].
  destruct (sweep send_json exclude_ws (elements (get_connections room_id m))).
  simpl in *. by rewrite Hsent, elem_of_elements.
Qed.

(** C7, at the failing state.  The host joined from websockets 1 and 2, Bob
    from websocket 3, and websocket 1 left, which removed the host user and
    her membership record.  A broadcast on which the send to websocket 2
    fails calls [leave_room] on it, which returns [None] because the user of
    websocket 2 has no room any more: websocket 2 stays in the connection
    set, and the next broadcast sends to it again. *)
Theorem broadcast_keeps_failed_orphan :
  attached 2 "3f2a9c1e" (run host_twice_run init) ∧
  send_fails_on_2 2 = false ∧
  leave_room 2 (run host_twice_run init) = (None, run host_twice_run init) ∧
  broadcast_to_room send_fails_on_2 "3f2a9c1e" None (run host_twice_run init)
    = ([2; 3], run host_twice_run init) ∧
  attached 2 "3f2a9c1e"
    (broadcast_to_room send_fails_on_2 "3f2a9c1e" None (run host_twice_run init)).2 ∧
  2 ∈ (broadcast_to_room (λ _, true) "3f2a9c1e" None
         (broadcast_to_room send_fails_on_2 "3f2a9c1e" None
            (run host_twice_run init)).2).1.
Proof.
  split; [in_connections|]. split; [reflexivity|].
  split; [vm_compute; reflexivity|]. split; [vm_compute; reflexivity|].
  split; [in_connections|].
  apply broadcast_attempts_all. split; [in_connections|discriminate].
Qed.

(** * Further properties of the manager *)

(** ** More on the ordered dict *)

Lemma od_get_keys {V} (k : string) (d : list (string * V)) :
  od_get k d = None ↔ k ∉ od_keys d.
Proof.
  induction d as [|[k' v] d IH]; simpl.
  - split; [intros _; apply not_elem_of_nil|done].
  - rewrite not_elem_of_cons. case_decide; [|tauto].
    split; [done|]. by intros [? _].
Qed.

Lemma od_get_elem {V} (k : string) (v : V) (d : list (string * V)) :
  od_get k d = Some v → (k, v) ∈ d.
Proof.
  induction d as [|[k' v'] d IH]; simpl; [done|].
  case_decide as Hk.
  - intros [= ->]. subst. apply elem_of_cons. by left.
  - intros H. apply elem_of_cons. right. by apply IH.
Qed.

Lemma od_get_set_eq {V} (k : string) (v : V) (d : list (string * V)) :
  od_get k (od_set k v d) = Some v.
Proof.
  induction d as [|[k' v'] d IH]; simpl.
  - by rewrite decide_True.
  - case_decide as Hk; simpl; [by rewrite decide_True|by rewrite decide_False].
Qed.

Lemma od_get_set_ne {V} (k k' : string) (v : V) (d : list (string * V)) :
  k ≠ k' → od_get k' (od_set k v d) = od_get k' d.
Proof.
  intros Hne. induction d as [|[k'' v'] d IH]; simpl.
  - by rewrite decide_False.
  - case_decide as Hk; simpl.
    + subst k''. by rewrite !decide_False.
    + by rewrite IH.
Qed.

Lemma od_set_length {V} (k : string) (v : V) (d : list (string * V)) :
  length (od_set k v d) =
    match od_get k d with Some _ => length d | None => S (length d) end.
Proof.
  induction d as [|[k' v'] d IH]; simpl; [done|].
  case_decide; simpl; [done|]. rewrite IH. by destruct (od_get k d).
Qed.

Lemma od_set_keys {V} (k : string) (v : V) (d : list (string * V)) :
  od_keys (od_set k v d) =
    match od_get k d with Some _ => od_keys d | None => (od_keys d ++ [k])%list end.
Proof.
  induction d as [|[k' v'] d IH]; simpl; [done|].
  case_decide; simpl; [by subst|]. rewrite IH. by destruct (od_get k d).
Qed.

Lemma od_set_Forall {V} (P : string * V → Prop) k v (d : list (string * V)) :
  Forall P d → P (k, v) → Forall P (od_set k v d).
Proof.
  intros Hd Hkv. induction Hd as [|[k' v'] d Hx Hd IH]; simpl.
  - by repeat constructor.
  - case_decide; by constructor.
Qed.

Lemma od_pop_fst {V} (k : string) (d : list (string * V)) :
  (od_pop k d).1 = od_get k d.
Proof.
  induction d as [|[k' v] d IH]; simpl; [done|].
  case_decide; [done|]. by destruct (od_pop k d).
Qed.

Lemma od_pop_sublist {V} (k : string) (d : list (string * V)) :
  sublist (od_pop k d).2 d.
Proof.
  induction d as [|[k' v] d IH]; simpl; [done|].
  case_decide; simpl.
  - by apply sublist_cons.
  - destruct (od_pop k d). by apply sublist_skip.
Qed.

Lemma od_pop_length {V} (k : string) (d : list (string * V)) :
  length (od_pop k d).2 ≤ length d.
Proof. apply sublist_length, od_pop_sublist. Qed.

Lemma od_pop_NoDup {V} (k : string) (d : list (string * V)) :
  NoDup (od_keys d) →
  NoDup (od_keys (od_pop k d).2) ∧ od_get k (od_pop k d).2 = None.
Proof.
  induction d as [|[k' v] d IH]; simpl; [done|].
  intros [Hk' Hd]%NoDup_cons. case_decide as Hk; simpl.
  - subst k'. split; [done|]. by apply od_get_keys.
  - destruct (IH Hd) as [IH1 IH2].
    pose proof (od_pop_sublist k d) as Hsub.
    destruct (od_pop k d) as [r d'']; simpl in *.
    rewrite decide_False by done. split; [|done].
    apply NoDup_cons. split; [|done].
    intros Hin. apply Hk'. unfold od_keys in *.
    by eapply elem_of_sublist; [|apply (fmap_sublist fst), Hsub].
Qed.

Lemma od_pop_set_fresh {V} (k : string) (v : V) (d : list (string * V)) :
  od_get k d = None → od_pop k (od_set k v d) = (Some v, d).
Proof.
  induction d as [|[k' v'] d IH]; simpl.
  - by rewrite decide_True.
  - case_decide as Hk; [done|]. intros Hd. simpl.
    rewrite decide_False by done. by rewrite (IH Hd).
Qed.

Lemma od_unique {V} (k : string) (v v' : V) (d : list (string * V)) :
  NoDup (od_keys d) → (k, v) ∈ d → (k, v') ∈ d → v = v'.
Proof.
  induction d as [|[k'' v''] d IH]; simpl.
  - by intros _ ?%elem_of_nil.
  - intros [Hk Hd]%NoDup_cons [Ha|Ha]%elem_of_cons [Hb|Hb]%elem_of_cons.
    + congruence.
    + destruct Hk. injection Ha as -> ->.
      apply (list_elem_of_fmap_2 fst) in Hb. done.
    + destruct Hk. injection Hb as -> ->.
      apply (list_elem_of_fmap_2 fst) in Ha. done.
    + by apply IH.
Qed.

(** ** Properties that every registered room keeps *)

Section room_invariant.

Variable P : Room.t → Prop.
Variable ok : Z → Prop.

Hypothesis P_create :
  ∀ room_id name host_id language code created_at max_users is_public host,
    ok max_users → User.id host = host_id → User.is_host host = true →
    P (Room.mk room_id name host_id language code created_at max_users is_public
         [(host_id, host)]).
Hypothesis P_join :
  ∀ room user,
    P room → ¬ full room → User.is_host user = false →
    P (Room.set_users (od_set (User.id user) user (Room.users room)) room).
Hypothesis P_leave :
  ∀ room user_id,
    P room → P (Room.set_users (od_pop user_id (Room.users room)).2 room).
Hypothesis P_code : ∀ room c, P room → P (Room.set_code c room).
Hypothesis P_language : ∀ room l, P room → P (Room.set_language l room).

Lemma rooms_all_insert room_id room m :
  P room → rooms_all P m → rooms_all P (set_rooms <[room_id := room]> m).
Proof.
  intros Hroom Hm rid room'. unfold get_room; simpl.
  destruct (decide (rid = room_id)) as [->|].
  - rewrite lookup_insert_eq. by intros [= <-].
  - rewrite lookup_insert_ne by done. apply Hm.
Qed.

Lemma rooms_all_delete_room room_id m :
  rooms_all P m → rooms_all P (delete_room room_id m).2.
Proof.
  intros Hm rid room. unfold get_room. rewrite delete_room_rooms.
  intros [_ Hroom]%lookup_delete_Some. by apply (Hm rid).
Qed.

Lemma rooms_all_create e name host_name language code max_users is_public m :
  ok max_users → rooms_all P m →
  rooms_all P (create_room e name host_name language code max_users is_public m).2.
Proof.
  intros Hok Hm. unfold create_room, get_user_color; simpl.
  apply (rooms_all_insert _ _ (set_color_index S m)); [|apply Hm].
  by apply P_create.
Qed.

Lemma rooms_all_join e room_id user_name websocket m :
  rooms_all P m → rooms_all P (join_room e room_id user_name websocket m).2.
Proof.
  intros Hm. unfold join_room.
  destruct (get_room room_id m) as [room|] eqn:Hroom; simpl; [|done].
  destruct (Z.leb_spec (Room.max_users room) (Z.of_nat (length (Room.users room))))
    as [Hfull|Hfree]; simpl; [done|].
  match goal with |- context [match ?x with Some _ => _ | None => _ end] =>
    destruct x as [user|] end; simpl; [done|].
  destruct (find_host user_name (Room.users room)) as [host|]; simpl.
  - by destruct (user_rooms m !! User.id host).
  - intros rid room'. unfold get_room. simpl.
    destruct (decide (rid = room_id)) as [->|].
    + rewrite lookup_insert_eq. intros [= <-].
      apply (P_join room (User.mk (generate_user_id (uuid1 e)) user_name
               (get_user_color m).1 false (utcnow1 e))); [|unfold full; lia|done].
      by apply (Hm room_id).
    + rewrite lookup_insert_ne by done. apply Hm.
Qed.

Lemma rooms_all_leave websocket m :
  rooms_all P m → rooms_all P (leave_room websocket m).2.
Proof.
  intros Hm.
  destruct (leave_room_cases websocket m) as [->|(u&r&room&_&_&Hroom&->)]; [done|].
  assert (rooms_all P (left_state websocket u r room m)) as Hleft.
  { apply (rooms_all_insert r _ m); [|done]. apply P_leave. by apply (Hm r). }
  simpl. destruct (length (od_pop u (Room.users room)).2 =? 0); [|done].
  by apply rooms_all_delete_room.
Qed.

Lemma rooms_all_cleanup l m : rooms_all P m → rooms_all P (cleanup l m).
Proof.
  revert m. induction l as [|ws l IH]; intros m Hm; simpl; [done|].
  by apply IH, rooms_all_leave.
Qed.

Lemma rooms_all_run ops m :
  creates_with ok ops → rooms_all P m → rooms_all P (run ops m).
Proof.
  revert m. induction ops as [|o ops IH]; intros m Hops Hm; simpl; [done|].
  apply Forall_cons in Hops as [Ho Hops]. apply IH; [done|].
  destruct o; simpl.
  - by apply rooms_all_create.
  - by apply rooms_all_join.
  - by apply rooms_all_leave.
  - unfold update_code. destruct (get_room room_id m) as [room|] eqn:E; [|done].
    apply rooms_all_insert; [|done]. by apply P_code, (Hm room_id).
  - unfold update_language. destruct (get_room room_id m) as [room|] eqn:E; [|done].
    apply rooms_all_insert; [|done]. by apply P_language, (Hm room_id).
  - by apply rooms_all_delete_room.
  - destruct (broadcast_to_room_state send_json room_id exclude_ws m) as [l ->].
    by apply rooms_all_cleanup.
  - unfold Main.create_room, room_manager.create_room.
    destruct (Main.validate request) eqn:Hvalid; [|done].
    pose proof (rooms_all_create e (Main.name request) (Main.host_name request)
      (Main.language request) (Main.code request) (Main.max_users request)
      (Main.is_public request) m (Ho eq_refl) Hm) as Hcreate.
    by destruct (create_room _ _ _ _ _ _ _ _).
  - destruct (main_delete_room_state room_id m) as [-> | ->]; [done|].
    by apply rooms_all_delete_room.
Qed.

Lemma rooms_all_init : rooms_all P init.
Proof. intros rid room. unfold get_room, init; simpl. by rewrite lookup_empty. Qed.

End room_invariant.

Lemma od_pop_Forall {V} (P : string * V → Prop) k (d : list (string * V)) :
  Forall P d → Forall P (od_pop k d).2.
Proof.
  rewrite !Forall_forall. intros Hd x Hx. apply Hd.
  by eapply elem_of_sublist; [|apply od_pop_sublist].
Qed.

Lemma within_capacity_run ops : rooms_all within_capacity (run ops init).
Proof.
  apply (rooms_all_run within_capacity (λ _, True)); unfold within_capacity, full.
  - intros; simpl. lia.
  - intros room user Hroom Hfree _; simpl.
    rewrite od_set_length. destruct (od_get _ _); lia.
  - intros room user_id Hroom; simpl.
    pose proof (od_pop_length user_id (Room.users room)). lia.
  - by intros room c Hroom.
  - by intros room l Hroom.
  - unfold creates_with. apply Forall_forall. intros o _. by destruct o.
  - apply rooms_all_init.
Qed.

(** X1 (capacity).  In every reachable state the number of users of a
    registered room is at most its [max_users], or one where the room was
    created with a [max_users] below one: [create_room] stores the host
    whatever the capacity, and [join_room] adds a user only below it. *)
Theorem user_count_within_capacity m room_id room :
  reachable m → get_room room_id m = Some room →
  (Z.of_nat (Room.s_user_count (Room.to_dict room)) ≤ Z.max 1 (Room.max_users room))%Z.
Proof. intros [ops ->] Hroom. by apply (within_capacity_run ops room_id). Qed.

Lemma user_count_within_capacity_witness :
  (Z.of_nat (Room.s_user_count (Room.to_dict
     (Room.mk "3f2a9c1e" "demo" "a1b2c3d4-0000-4000-8000-00000000000a" "Python" ""
        "2024-05-01T10:00:00.000002" 2 true
        [("a1b2c3d4-0000-4000-8000-00000000000a",
          User.mk "a1b2c3d4-0000-4000-8000-00000000000a" "Alice" "#FF6B6B" true
            "2024-05-01T10:00:00.000001");
         ("a1b2c3d4-0000-4000-8000-00000000000b",
          User.mk "a1b2c3d4-0000-4000-8000-00000000000b" "Bob" "#4ECDC4" false
            "2024-05-01T10:02:00.000001")]))) ≤ Z.max 1 2)%Z.
Proof.
  apply (user_count_within_capacity (run full_room_run init) "3f2a9c1e").
  - by eexists.
  - vm_compute. reflexivity.
Defined.

(** X2 (capacity of rooms made through the endpoint).  Along a run whose
    rooms are all created with a [max_users] in [2,50], as the create
    endpoint makes sure, every registered room has a [max_users] in [2,50]
    and between one user and [max_users] users. *)
Theorem endpoint_rooms_bounded ops room_id room :
  creates_with (λ max_users, (2 ≤ max_users ≤ 50)%Z) ops →
  get_room room_id (run ops init) = Some room →
  bounded_room room.
Proof.
  intros Hops Hroom.
  assert (rooms_all (λ room, (2 ≤ Room.max_users room ≤ 50)%Z ∧
            (Z.of_nat (length (Room.users room)) ≤ Room.max_users room)%Z)
            (run ops init)) as Hinv.
  { apply (rooms_all_run _ (λ max_users, (2 ≤ max_users ≤ 50)%Z)); unfold full.
    - intros; simpl. lia.
    - intros r user [Hmax Hlen] Hfree _; simpl. split; [done|].
      rewrite od_set_length. destruct (od_get _ _); lia.
    - intros r user_id [Hmax Hlen]; simpl. split; [done|].
      pose proof (od_pop_length user_id (Room.users r)). lia.
    - by intros r c Hr.
    - by intros r l Hr.
    - done.
    - apply rooms_all_init. }
  destruct (Hinv room_id room Hroom) as [Hmax Hlen].
  assert (Room.users room ≠ []) as Hne.
  { apply (reachable_rooms_nonempty (run ops init)) with room_id; [by eexists|done]. }
  split; [done|]. split; [|done].
  destruct (Room.users room); [done|simpl; lia].
Qed.

Lemma endpoint_rooms_bounded_witness :
  ∃ room, get_room "3f2a9c1e" (run full_room_run init) = Some room ∧
          bounded_room room.
Proof.
  eexists. split; [vm_compute; reflexivity|].
  apply (endpoint_rooms_bounded full_room_run "3f2a9c1e").
  - constructor; [simpl; intros _; lia|]. constructor; [exact I|]. constructor.
  - vm_compute. reflexivity.
Defined.

Lemma room_wf_run ops : rooms_all room_wf (run ops init).
Proof.
  apply (rooms_all_run room_wf (λ _, True)); unfold room_wf.
  - intros ????????? _ Hid Hhost; simpl. split.
    + apply NoDup_singleton.
    + by repeat constructor.
  - intros room user [Hnd Hall] _ Hhost; simpl. split.
    + rewrite od_set_keys.
      destruct (od_get (User.id user) (Room.users room)) eqn:Hget; [done|].
      apply NoDup_app. split; [done|]. split; [|apply NoDup_singleton].
      intros k Hk ->%list_elem_of_singleton. by apply od_get_keys in Hget.
    + apply od_set_Forall; [done|]. simpl. split; [done|]. by rewrite Hhost.
  - intros room user_id [Hnd Hall]; simpl. split.
    + by apply od_pop_NoDup.
    + by apply od_pop_Forall.
  - by intros room c Hroom.
  - by intros room l Hroom.
  - unfold creates_with. apply Forall_forall. intros o _. by destruct o.
  - apply rooms_all_init.
Qed.

(** X3 (identities within a room).  In every reachable state the users of a
    registered room are stored under their own ids, so two users of a room
    with the same id are the same user, and a room has at most one user with
    the host flag, whose id is the [host_id] of the room. *)
Theorem room_users_distinct_one_host m room_id room :
  reachable m → get_room room_id m = Some room →
  NoDup (User.id <$> Room.s_users (Room.to_dict room)) ∧
  (∀ user_id user, od_get user_id (Room.users room) = Some user →
                   User.id user = user_id) ∧
  (∀ user, user ∈ Room.s_users (Room.to_dict room) →
           User.is_host user = true → User.id user = Room.host_id room) ∧
  (∀ user1 user2,
     user1 ∈ Room.s_users (Room.to_dict room) →
     user2 ∈ Room.s_users (Room.to_dict room) →
     User.is_host user1 = true → User.is_host user2 = true → user1 = user2).
Proof.
  intros [ops ->] Hroom.
  destruct (room_wf_run ops room_id room Hroom) as [Hnd Hall].
  rewrite Forall_forall in Hall.
  change (Room.s_users (Room.to_dict room)) with ((Room.users room).*2).
  assert (∀ user, user ∈ (Room.users room).*2 → (User.id user, user) ∈ Room.users room)
    as Hentry.
  { intros user ([k u] & -> & Hin)%list_elem_of_fmap. simpl.
    destruct (Hall _ Hin) as [Hid _]. simpl in Hid. by rewrite Hid. }
  assert (∀ user, user ∈ (Room.users room).*2 → User.is_host user = true →
                  User.id user = Room.host_id room) as Hhost.
  { intros user Hin Hflag. by apply (Hall _ (Hentry user Hin)). }
  split; [|split; [|split]].
  - assert (User.id <$> (Room.users room).*2 = od_keys (Room.users room)) as ->; [|done].
    change (od_keys (Room.users room)) with ((Room.users room).*1).
    rewrite <- list_fmap_compose.
    apply list_fmap_ext. intros i entry Hin. simpl.
    by apply (Hall entry), list_elem_of_lookup_2 with i.
  - intros user_id user Hget. by apply (Hall _ (od_get_elem _ _ _ Hget)).
  - done.
  - intros user1 user2 Hin1 Hin2 Hflag1 Hflag2.
    pose proof (Hentry _ Hin1) as He1. pose proof (Hentry _ Hin2) as He2.
    rewrite (Hhost _ Hin1 Hflag1) in He1. rewrite (Hhost _ Hin2 Hflag2) in He2.
    by apply (od_unique _ _ _ _ Hnd He1 He2).
Qed.

Lemma room_users_distinct_one_host_witness :
  ∃ room, get_room "3f2a9c1e" (run full_room_run init) = Some room ∧
    NoDup (User.id <$> Room.s_users (Room.to_dict room)) ∧
    (∀ user1 user2,
       user1 ∈ Room.s_users (Room.to_dict room) →
       user2 ∈ Room.s_users (Room.to_dict room) →
       User.is_host user1 = true → User.is_host user2 = true → user1 = user2).
Proof.
  eexists. split; [vm_compute; reflexivity|].
  refine (let H := room_users_distinct_one_host (run full_room_run init) "3f2a9c1e" _ _ _
          in conj (proj1 H) (proj2 (proj2 (proj2 H)))).
  - by eexists.
  - vm_compute. reflexivity.
Defined.

(** ** The colour allocator *)

Lemma draw_colors_index n m : color_index (draw_colors n m) = n + color_index m.
Proof.
  unfold draw_colors. induction n as [|n IH]; [done|].
  rewrite Nat.iter_succ. unfold get_user_color at 1. cbn [snd set_color_index color_index].
  by rewrite IH.
Qed.

Lemma user_colors_NoDup : List.NoDup user_colors.
Proof. apply NoDup_ListNoDup, bool_decide_unpack with (NoDup_dec _). by vm_compute. Qed.

(** X4 (round robin of colours).  [get_user_color] always returns an entry
    of the palette and advances the counter by one; the colour comes back
    after every twelve draws, and not before: the colours of fewer than
    twelve draws in a row are all different. *)
Theorem get_user_color_round_robin m n :
  (get_user_color m).1 ∈ user_colors ∧
  color_index (get_user_color m).2 = S (color_index m) ∧
  (get_user_color (draw_colors (12 * n) m)).1 = (get_user_color m).1 ∧
  (0 < n < 12 →
   (get_user_color (draw_colors n m)).1 ≠ (get_user_color m).1).
Proof.
  unfold get_user_color. cbn [fst snd].
  change (length user_colors) with 12.
  assert (∀ c, c mod 12 < length user_colors) as Hlt.
  { intros c. change (length user_colors) with 12. apply Nat.mod_upper_bound. lia. }
  split; [|split; [done|split]].
  - apply list_elem_of_In, nth_In, Hlt.
  - rewrite draw_colors_index. f_equal.
    rewrite Nat.add_comm, (Nat.mul_comm 12 n). apply Nat.Div0.mod_add.
  - intros Hn Heq. rewrite draw_colors_index in Heq.
    apply (proj1 (NoDup_nth user_colors "") user_colors_NoDup) in Heq;
      [|apply Hlt|apply Hlt].
    pose proof (Nat.div_mod_eq (n + color_index m) 12).
    pose proof (Nat.div_mod_eq (color_index m) 12).
    lia.
Qed.

Lemma get_user_color_round_robin_witness :
  (get_user_color (draw_colors 5 init)).1 ≠ (get_user_color init).1.
Proof.
  apply (proj2 (proj2 (proj2 (get_user_color_round_robin init 5)))). lia.
Defined.

(** ** Deleting a room *)

Lemma foldl_delete_notin (keys : list string) (ur : gmap string string) k :
  k ∉ keys → foldl (λ ur user_id, delete user_id ur) ur keys !! k = ur !! k.
Proof.
  revert ur. induction keys as [|k' keys IH]; intros ur; simpl; [done|].
  intros [Hne Hnin]%not_elem_of_cons. rewrite IH by done.
  by rewrite lookup_delete_ne.
Qed.

Lemma foldl_delete_in (keys : list string) (ur : gmap string string) k :
  k ∈ keys → foldl (λ ur user_id, delete user_id ur) ur keys !! k = None.
Proof.
  revert ur. induction keys as [|k' keys IH]; intros ur; simpl.
  - by intros ?%elem_of_nil.
  - intros Hin. destruct (decide (k ∈ keys)) as [Hk|Hk]; [by apply IH|].
    apply elem_of_cons in Hin as [->|?]; [|done].
    rewrite foldl_delete_notin by done. apply lookup_delete_eq.
Qed.

(** X5 (room deletion).  [delete_room] on an id that is not registered
    returns false and changes nothing.  On a registered room it returns
    true; afterwards the room is gone, its connection set is empty, none of
    its users has a membership record, the records of all other users, the
    other rooms and their connection sets, the websocket-to-user map and the
    colour counter are as before, and a second [delete_room] returns false. *)
Theorem delete_room_effects room_id m :
  (get_room room_id m = None → delete_room room_id m = (false, m)) ∧
  (∀ room, get_room room_id m = Some room →
   ∃ m', delete_room room_id m = (true, m') ∧
     get_room room_id m' = None ∧
     get_connections room_id m' = ∅ ∧
     (∀ user_id, user_id ∈ od_keys (Room.users room) → user_rooms m' !! user_id = None) ∧
     (∀ user_id, user_id ∉ od_keys (Room.users room) →
                 user_rooms m' !! user_id = user_rooms m !! user_id) ∧
     (∀ other, other ≠ room_id →
        get_room other m' = get_room other m ∧
        get_connections other m' = get_connections other m) ∧
     ws_users m' = ws_users m ∧ color_index m' = color_index m ∧
     delete_room room_id m' = (false, m')).
Proof.
  unfold delete_room, get_room. split; [by intros ->|].
  intros room ->. eexists. split; [reflexivity|].
  unfold get_connections; simpl. rewrite !lookup_delete_eq.
  repeat split; try done.
  - intros user_id Hin. by apply foldl_delete_in.
  - intros user_id Hin. by apply foldl_delete_notin.
  - by rewrite lookup_delete_ne.
  - by rewrite lookup_delete_ne.
Qed.

Lemma delete_room_effects_witness :
  delete_room "77e0d5b2" (run full_room_run init) = (false, run full_room_run init) ∧
  ∃ m', delete_room "3f2a9c1e" (run full_room_run init) = (true, m') ∧
        get_room "3f2a9c1e" m' = None ∧
        user_rooms m' !! "a1b2c3d4-0000-4000-8000-00000000000b" = None ∧
        delete_room "3f2a9c1e" m' = (false, m').
Proof.
  split.
  - apply (proj1 (delete_room_effects "77e0d5b2" (run full_room_run init))).
    vm_compute. reflexivity.
  - assert (∃ room, get_room "3f2a9c1e" (run full_room_run init) = Some room ∧
                    "a1b2c3d4-0000-4000-8000-00000000000b" ∈ od_keys (Room.users room))
      as (room & Hroom & Hin).
    { eexists. split; [vm_compute; reflexivity|]. simpl. right. left. }
    destruct (proj2 (delete_room_effects "3f2a9c1e" (run full_room_run init)) room Hroom)
      as (m' & Hdel & Hgone & _ & Hurs & _ & _ & _ & _ & Hagain).
    exists m'. split; [exact Hdel|]. split; [exact Hgone|].
    split; [exact (Hurs _ Hin)|exact Hagain].
Defined.

(** ** More on joining *)

Lemma truthy_false (s : string) : truthy s = false → s = "".
Proof. unfold truthy. intros H%negb_false_iff. by apply String.eqb_eq. Qed.

(** The four ways through [join_room]: refusal, reconnect, host re-join and
    new participant. *)
Lemma join_room_cases e room_id user_name websocket m :
  (join_room e room_id user_name websocket m = (None, m) ∧
   (get_room room_id m = None ∨ ∃ room, get_room room_id m = Some room ∧ full room)) ∨
  ∃ room, get_room room_id m = Some room ∧ ¬ full room ∧
    ((∃ existing user,
        ws_users m !! websocket = Some existing ∧ existing ≠ "" ∧
        od_get existing (Room.users room) = Some user ∧
        join_room e room_id user_name websocket m =
          (Some user, set_connections (conn_add room_id websocket) m)) ∨
     (no_reconnect websocket room m ∧
      ∃ host, find_host user_name (Room.users room) = Some host ∧
        join_room e room_id user_name websocket m =
          (Some host, joined_host_state room_id websocket host m)) ∨
     (no_reconnect websocket room m ∧
      find_host user_name (Room.users room) = None ∧
      join_room e room_id user_name websocket m =
        (Some (new_user e user_name m),
         joined_new_state e room_id user_name websocket room m))).
Proof.
  unfold join_room, full.
  destruct (get_room room_id m) as [room|] eqn:Hroom; [|left; split; [done|by left]].
  destruct (Z.leb_spec (Room.max_users room) (Z.of_nat (length (Room.users room))))
    as [Hfull|Hfree].
  { left. split; [done|]. right. by exists room. }
  right. exists room. split; [done|]. split; [lia|].
  assert ((∃ existing user, ws_users m !! websocket = Some existing ∧
             existing ≠ "" ∧ truthy existing = true ∧
             od_get existing (Room.users room) = Some user) ∨
          (no_reconnect websocket room m ∧
           match ws_users m !! websocket with
           | Some existing =>
               if truthy existing then od_get existing (Room.users room) else None
           | None => None
           end = None)) as [(existing & user & Hws & Hne & Htruthy & Hget)|[Hno Hnone]].
  { unfold no_reconnect.
    destruct (ws_users m !! websocket) as [existing|]; [|right; by split].
    destruct (truthy existing) eqn:Htruthy.
    - destruct (od_get existing (Room.users room)) as [user|] eqn:Hget.
      + left. exists existing, user. repeat split; try done.
        intros ->. done.
      + right. split; [|done]. intros ? [= <-]. by right.
    - right. split; [|done]. intros ? [= <-]. left. by apply truthy_false. }
  - left. exists existing, user. rewrite Hws, Htruthy, Hget. by repeat split.
  - right. rewrite Hnone.
    destruct (find_host user_name (Room.users room)) as [host|] eqn:Hhost.
    + left. split; [done|]. exists host. split; [done|].
      unfold joined_host_state. simpl.
      by destruct (user_rooms m !! User.id host).
    + right. by repeat split.
Qed.

(** X6 (failed joins).  [join_room] returns [None] exactly when the room is
    not registered or is full, and a join that returns [None] leaves the
    state as it was. *)
Theorem join_room_fails_iff e room_id user_name websocket m :
  ((join_room e room_id user_name websocket m).1 = None ↔
   get_room room_id m = None ∨
   ∃ room, get_room room_id m = Some room ∧ full room) ∧
  ((join_room e room_id user_name websocket m).1 = None →
   (join_room e room_id user_name websocket m).2 = m).
Proof.
  destruct (join_room_cases e room_id user_name websocket m)
    as [[-> Hwhy]|(room & Hroom & Hfree & Hcase)]; [by split|].
  assert (is_Some (join_room e room_id user_name websocket m).1) as [user Hsome].
  { destruct Hcase as [(?&?&_&_&_&->)|[(_&?&_&->)|(_&_&->)]]; by eexists. }
  rewrite Hsome. split; [|done]. split; [done|].
  intros [Hnone|(room' & Hroom' & Hfull)]; [congruence|].
  rewrite Hroom in Hroom'. by injection Hroom' as <-.
Qed.

Lemma join_room_fails_iff_witness :
  (join_room env_bob "77e0d5b2" "Bob" 4 (run full_room_run init)).2
    = run full_room_run init.
Proof.
  apply (proj2 (join_room_fails_iff env_bob "77e0d5b2" "Bob" 4 (run full_room_run init))).
  vm_compute. reflexivity.
Defined.

Lemma find_host_elem user_name us host :
  find_host user_name us = Some host →
  host ∈ od_values us ∧ User.name host = user_name ∧ User.is_host host = true.
Proof.
  unfold find_host. intros [Hin Hb]%find_some.
  apply andb_true_iff in Hb as [Hname Hhost].
  split; [by apply list_elem_of_In|]. split; [by apply String.eqb_eq|done].
Qed.

(** X7 (successful joins).  After a join that returns a user, the websocket
    is in the connection set of the room and is associated with some user,
    the returned user is among the users of the room, and no other room has
    changed.  The returned user has the name asked for unless the websocket
    was already associated with a member of the room, who is then returned
    under their own name. *)
Theorem join_room_success e room_id user_name websocket m user m' :
  join_room e room_id user_name websocket m = (Some user, m') →
  attached websocket room_id m' ∧
  is_Some (ws_users m' !! websocket) ∧
  (∃ room', get_room room_id m' = Some room' ∧ user ∈ od_values (Room.users room')) ∧
  (∀ other, other ≠ room_id → get_room other m' = get_room other m) ∧
  (User.name user = user_name ∨
   ∃ existing room, ws_users m !! websocket = Some existing ∧
                    get_room room_id m = Some room ∧
                    od_get existing (Room.users room) = Some user).
Proof.
  intros Hjoin.
  assert (attached websocket room_id m') as Hatt.
  { unfold attached.
    change m' with (Some user, m').2. rewrite <- Hjoin.
    apply join_room_connections. right. rewrite Hjoin. by split; [|split; [|eexists]]. }
  split; [done|].
  destruct (join_room_cases e room_id user_name websocket m)
    as [[Hnone _]|(room & Hroom & Hfree & Hcase)]; [congruence|].
  destruct Hcase as [(existing & member & Hws & Hne & Hget & Heq)|
                     [(Hno & host & Hhost & Heq)|(Hno & Hhost & Heq)]];
    rewrite Heq in Hjoin; injection Hjoin as <- <-.
  - split; [simpl; rewrite Hws; by eexists|]. split; [|split; [done|]].
    + exists room. split; [done|].
      apply od_get_elem in Hget. by apply (list_elem_of_fmap_2 snd) in Hget.
    + right. by exists existing, room.
  - apply find_host_elem in Hhost as (Hin & Hname & _).
    unfold joined_host_state, get_room in *.
    destruct (user_rooms _ !! User.id host); simpl; rewrite lookup_insert_eq;
      (split; [by eexists|]); (split; [by exists room|]); (split; [done|by left]).
  - unfold joined_new_state, get_room in *; simpl. rewrite !lookup_insert_eq.
    split; [by eexists|]. split; [|split; [|by left]].
    + eexists. split; [done|]. simpl.
      apply (list_elem_of_fmap_2 snd _
               (generate_user_id (uuid1 e), new_user e user_name m)).
      apply od_get_elem, od_get_set_eq.
    + intros other Hother. by rewrite lookup_insert_ne.
Qed.

Lemma join_room_success_witness :
  attached 7 "3f2a9c1e"
    (join_room env_bob "3f2a9c1e" "Bob" 7
       (run [OpPostCreate env_demo (request_demo 2)] init)).2.
Proof.
  destruct (join_room env_bob "3f2a9c1e" "Bob" 7
              (run [OpPostCreate env_demo (request_demo 2)] init))
    as [[user|] m'] eqn:Hjoin; [|vm_compute in Hjoin; discriminate].
  exact (proj1 (join_room_success _ _ _ _ _ _ _ Hjoin)).
Defined.

(** ** Joining and leaving *)

Lemma set_users_set_users us us' room :
  Room.users room = us → Room.set_users us (Room.set_users us' room) = room.
Proof. intros <-. by destruct room. Qed.

(** X8 (join, then leave).  A websocket with no user joins, as a new
    participant, a registered room that has users and is not full, no host
    of the room having the name given; the room id is not the empty string,
    and the id drawn for the new user is not the empty string and is new to
    the room and to the membership records.  Leaving on that websocket then
    returns the room id and the user that the join returned, and puts back
    the rooms, the membership records and the websocket-to-user map as they
    were before the join.  The connection sets of the other rooms are as
    before, and that of the room is as before with the websocket taken out:
    it is as before if the websocket was not in it.  The colour counter has
    moved on by one. *)
Theorem join_leave_round_trip e room_id user_name websocket m room :
  get_room room_id m = Some room → ¬ full room → Room.users room ≠ [] →
  room_id ≠ "" → uuid1 e ≠ "" →
  ws_users m !! websocket = None →
  find_host user_name (Room.users room) = None →
  od_get (uuid1 e) (Room.users room) = None →
  user_rooms m !! uuid1 e = None →
  ∃ user m1 m2,
    join_room e room_id user_name websocket m = (Some user, m1) ∧
    leave_room websocket m1 = (Some (room_id, Some user), m2) ∧
    rooms m2 = rooms m ∧ user_rooms m2 = user_rooms m ∧
    ws_users m2 = ws_users m ∧
    (∀ other, other ≠ room_id →
              get_connections other m2 = get_connections other m) ∧
    get_connections room_id m2 = get_connections room_id m ∖ {[websocket]} ∧
    (¬ attached websocket room_id m →
     ∀ other, get_connections other m2 = get_connections other m) ∧
    color_index m2 = S (color_index m).
Proof.
  intros Hroom Hfree Hne Hrid Huid Hws Hhost Hfresh Hur.
  destruct (join_room_cases e room_id user_name websocket m)
    as [[_ [Hnone|(room' & Hroom' & Hfull)]]|(room' & Hroom' & _ & Hcase)].
  { congruence. }
  { rewrite Hroom in Hroom'. by injection Hroom' as <-. }
  rewrite Hroom in Hroom'. injection Hroom' as <-.
  destruct Hcase as [(existing & ? & Hws' & _)|[(_ & host & Hhost' & _)|(_ & _ & Hjoin)]];
    [congruence|congruence|].
  assert ((length (Room.users room) =? 0) = false) as Hlen.
  { apply Nat.eqb_neq. destruct (Room.users room); [done|simpl; lia]. }
  exists (new_user e user_name m), (joined_new_state e room_id user_name websocket room m).
  eexists. split; [exact Hjoin|].
  unfold leave_room, joined_new_state, get_room, generate_user_id.
  cbn [ws_users user_rooms rooms set_ws_users set_connections set_user_rooms set_rooms].
  rewrite !lookup_insert_eq, (truthy_ne _ Huid), (truthy_ne _ Hrid).
  cbn [negb Room.users Room.set_users].
  rewrite (od_pop_set_fresh _ _ _ Hfresh), Hlen.
  split; [reflexivity|]. simpl.
  unfold get_room in Hroom.
  assert (∀ other, other ≠ room_id →
            default ∅ (conn_discard room_id websocket
                         (conn_add room_id websocket (connections m)) !! other)
            = get_connections other m) as Hothers.
  { intros other Hother. unfold get_connections, conn_discard, conn_add.
    by rewrite !lookup_insert_ne. }
  assert (default ∅ (conn_discard room_id websocket
                       (conn_add room_id websocket (connections m)) !! room_id)
          = get_connections room_id m ∖ {[websocket]}) as Hroomset.
  { unfold get_connections, conn_discard, conn_add, conn_index.
    rewrite !lookup_insert_eq. simpl. set_solver. }
  split; [|split; [|split; [|split; [|split; [|split]]]]].
  - rewrite insert_insert_eq, set_users_set_users by done. by apply insert_id.
  - by apply delete_insert_id.
  - by apply delete_insert_id.
  - exact Hothers.
  - exact Hroomset.
  - intros Hatt other. destruct (decide (other = room_id)) as [->|Hother].
    + transitivity (get_connections room_id m ∖ {[websocket]}); [exact Hroomset|].
      unfold attached in Hatt. set_solver.
    + by apply Hothers.
  - done.
Qed.

Lemma join_leave_round_trip_witness :
  ∃ user m1 m2,
    join_room env_bob "3f2a9c1e" "Bob" 7
      (run [OpPostCreate env_demo (request_demo 2)] init) = (Some user, m1) ∧
    leave_room 7 m1 = (Some ("3f2a9c1e", Some user), m2) ∧
    rooms m2 = rooms (run [OpPostCreate env_demo (request_demo 2)] init).
Proof.
  assert (∃ room, get_room "3f2a9c1e"
                    (run [OpPostCreate env_demo (request_demo 2)] init) = Some room ∧
                  Room.max_users room = 2%Z ∧ length (Room.users room) = 1 ∧
                  find_host "Bob" (Room.users room) = None ∧
                  od_get (uuid1 env_bob) (Room.users room) = None)
    as (room & Hroom & Hmax & Hlen & Hhost & Hfresh).
  { eexists. split; [vm_compute; reflexivity|]. by repeat split. }
  destruct (join_leave_round_trip env_bob "3f2a9c1e" "Bob" 7
              (run [OpPostCreate env_demo (request_demo 2)] init) room)
    as (user & m1 & m2 & Hjoin & Hleave & Hrooms & _).
  - exact Hroom.
  - unfold full. rewrite Hmax, Hlen. lia.
  - intros Hnil. by rewrite Hnil in Hlen.
  - discriminate.
  - discriminate.
  - vm_compute. reflexivity.
  - exact Hhost.
  - exact Hfresh.
  - vm_compute. reflexivity.
  - by exists user, m1, m2.
Defined.

(** ** More on leaving *)

Lemma delete_room_frame room_id m :
  (∀ other, other ≠ room_id →
     get_room other (delete_room room_id m).2 = get_room other m ∧
     get_connections other (delete_room room_id m).2 = get_connections other m) ∧
  (∀ user_id, user_rooms m !! user_id = None →
              user_rooms (delete_room room_id m).2 !! user_id = None).
Proof.
  unfold delete_room, get_room, get_connections.
  destruct (rooms m !! room_id) as [room|]; simpl; [|done].
  split.
  - intros other Hother. by rewrite !lookup_delete_ne.
  - intros user_id Hnone.
    destruct (decide (user_id ∈ od_keys (Room.users room))).
    + by apply foldl_delete_in.
    + by rewrite foldl_delete_notin.
Qed.

(** X9 (what a leave undoes).  When [leave_room] returns a room id, the
    websocket was associated with a user whose membership record named that
    room; the user returned is the one the room held under that id, if any.
    Afterwards the websocket is in the connection set of that room no more
    and has no user, the membership record is gone, and the other rooms,
    their connection sets and the users of the other websockets are as
    before. *)
Theorem leave_room_effects websocket m room_id user m' :
  leave_room websocket m = (Some (room_id, user), m') →
  (∃ user_id room,
     ws_users m !! websocket = Some user_id ∧
     user_rooms m !! user_id = Some room_id ∧
     get_room room_id m = Some room ∧
     user = od_get user_id (Room.users room) ∧
     user_rooms m' !! user_id = None) ∧
  ¬ attached websocket room_id m' ∧
  ws_users m' !! websocket = None ∧
  (∀ other, other ≠ room_id →
     get_room other m' = get_room other m ∧
     get_connections other m' = get_connections other m) ∧
  (∀ ws, ws ≠ websocket → ws_users m' !! ws = ws_users m !! ws).
Proof.
  intros Hleave.
  destruct (leave_room_cases websocket m)
    as [Hnone|(u & r & room & Hws & Hur & Hroom & Hsome)]; [congruence|].
  rewrite Hsome in Hleave. injection Hleave as -> <- <-.
  set (left := left_state websocket u room_id room m).
  assert (¬ attached websocket room_id left ∧
          user_rooms left !! u = None ∧
          (∀ other, other ≠ room_id →
             get_room other left = get_room other m ∧
             get_connections other left = get_connections other m) ∧
          ws_users left = delete websocket (ws_users m))
    as (Hatt & Huser & Hframe & Hwsu).
  { unfold left, left_state, attached, get_room, get_connections, conn_discard. simpl.
    rewrite !lookup_insert_eq, lookup_delete_eq. simpl.
    split; [set_solver|]. split; [done|]. split; [|done].
    intros other Hother. by rewrite !lookup_insert_ne. }
  destruct (delete_room_frame room_id left) as [Hdframe Hduser].
  split; [|split; [|split; [|split]]].
  - exists u, room. rewrite od_pop_fst. repeat split; try done.
    destruct (length (od_pop u (Room.users room)).2 =? 0); [by apply Hduser|done].
  - destruct (length (od_pop u (Room.users room)).2 =? 0); [|done].
    intros Hin. apply Hatt. by apply (delete_room_connections room_id left).
  - destruct (length (od_pop u (Room.users room)).2 =? 0).
    + rewrite delete_room_ws_users, Hwsu. apply lookup_delete_eq.
    + rewrite Hwsu. apply lookup_delete_eq.
  - intros other Hother.
    destruct (length (od_pop u (Room.users room)).2 =? 0); [|by apply Hframe].
    destruct (Hdframe other Hother) as [-> ->]. by apply Hframe.
  - intros ws Hne.
    destruct (length (od_pop u (Room.users room)).2 =? 0).
    + rewrite delete_room_ws_users, Hwsu. by apply lookup_delete_ne.
    + rewrite Hwsu. by apply lookup_delete_ne.
Qed.

Lemma leave_room_effects_witness :
  ¬ attached 7 "3f2a9c1e" (leave_room 7 (run full_room_run init)).2.
Proof.
  destruct (leave_room 7 (run full_room_run init)) as [[[room_id user]|] m'] eqn:Hleave;
    [|vm_compute in Hleave; discriminate].
  assert (room_id = "3f2a9c1e") as ->.
  { assert ((leave_room 7 (run full_room_run init)).1 = Some (room_id, user)) as H1
      by (by rewrite Hleave).
    vm_compute in H1. by injection H1. }
  exact (proj1 (proj2 (leave_room_effects _ _ _ _ _ Hleave))).
Defined.

(** ** More on broadcasting *)


Lemma sweep_during_sweep send_json others room_id exclude_ws l m sent disconnected m' :
  sweep_during send_json others room_id exclude_ws l m = Some (sent, disconnected, m') →
  sweep send_json exclude_ws l = (sent, disconnected).
Proof.
  revert m sent disconnected m'.
  induction l as [|ws l IH]; intros m sent disconnected m'; simpl.
  - by intros [= <- <- _].
  - case_bool_decide.
    + intros Hsweep. by rewrite (IH _ _ _ _ Hsweep).
    + destruct (quiet room_id (others ws) m); [|done].
      destruct (sweep_during _ _ _ _ l _) as [[[sent' disc'] m'']|] eqn:Hrest; [|done].
      rewrite (IH _ _ _ _ Hrest). intros [= <- <- _].
      by destruct (send_json ws).
Qed.





Lemma sweep_disconnected send_json room_id exclude_ws m :
  ∃ sent disconnected,
    sweep send_json exclude_ws (elements (get_connections room_id m))
      = (sent, disconnected) ∧
    broadcast_to_room send_json room_id exclude_ws m
      = (sent, cleanup (elements disconnected) m) ∧
    ∀ ws, ws ∈ disconnected ↔
          attached ws room_id m ∧ Some ws ≠ exclude_ws ∧ send_json ws = false.
Proof.
  unfold broadcast_to_room, attached.
  destruct (sweep send_json exclude_ws (elements (get_connections room_id m)))
    as [sent disconnected] eqn:Hsweep.
  exists sent, disconnected. split; [done|]. split; [done|].
  intros ws.
  pose proof (sweep_spec send_json exclude_ws
                (elements (get_connections room_id m)) ws) as [_ Hd].
  rewrite Hsweep in Hd. simpl in Hd. by rewrite Hd, elem_of_elements.
Qed.

(** X11 (a broadcast without failures).  If [send_json] succeeds on every
    websocket of the room other than the excluded one, in particular if the
    room has no connections or is not known, the broadcast leaves the state
    as it was. *)
Theorem broadcast_all_delivered send_json room_id exclude_ws m :
  (∀ ws, attached ws room_id m → Some ws ≠ exclude_ws → send_json ws = true) →
  (broadcast_to_room send_json room_id exclude_ws m).2 = m.
Proof.
  intros Hok.
  destruct (sweep_disconnected send_json room_id exclude_ws m)
    as (sent & disconnected & _ & -> & Hd).
  assert (disconnected = ∅) as ->.
  { apply elem_of_equiv_empty_L. intros ws (Hin & Hex & Hsend)%Hd.
    rewrite (Hok ws Hin Hex) in Hsend. done. }
  by rewrite elements_empty.
Qed.

Lemma broadcast_all_delivered_witness :
  (broadcast_to_room (λ _, true) "3f2a9c1e" (Some 7) (run full_room_run init)).2
    = run full_room_run init ∧
  (broadcast_to_room send_fails_on_2 "77e0d5b2" None (run full_room_run init)).2
    = run full_room_run init.
Proof.
  split.
  - apply (broadcast_all_delivered (λ _, true) "3f2a9c1e" (Some 7)
             (run full_room_run init)). reflexivity.
  - apply (broadcast_all_delivered send_fails_on_2 "77e0d5b2" None
             (run full_room_run init)).
    intros ws Hin. exfalso. revert Hin. unfold attached.
    assert (get_connections "77e0d5b2" (run full_room_run init) = ∅) as ->
      by (vm_compute; reflexivity).
    apply not_elem_of_empty.
Defined.

Lemma leave_room_detaches websocket m room_id user m' :
  leave_room websocket m = (Some (room_id, user), m') →
  ¬ attached websocket room_id m' ∧ ws_users m' !! websocket = None.
Proof.
  intros Hleave. split; [|by eapply leave_room_ws_users].
  destruct (leave_room_cases websocket m)
    as [Hnone|(u & r & room & _ & _ & _ & Hsome)]; [congruence|].
  rewrite Hsome in Hleave. injection Hleave as -> _ <-.
  assert (¬ attached websocket room_id (left_state websocket u room_id room m)) as Hatt.
  { unfold left_state, attached, get_connections, conn_discard. simpl.
    rewrite lookup_insert_eq. simpl. set_solver. }
  destruct (length (od_pop u (Room.users room)).2 =? 0); [|done].
  intros Hin. apply Hatt. by apply (delete_room_connections room_id _).
Qed.

(** X12 (a broadcast with one failure).  Other handlers may run while the
    broadcast is suspended in a send, and none of their calls changes the
    connection set of the room, so that the sweep runs to its end.  The send
    fails on one websocket of the room and on no other; in the state in
    which the sweep ends that websocket is associated with a user, of an id
    other than the empty string, whose membership record names this room,
    of an id other than the empty string, and the room is registered.  Then
    the broadcast has sent to that websocket, and after the broadcast it is
    in the connection set of the room no more and has no user. *)
Theorem broadcast_during_prunes_failed send_json others room_id exclude_ws m
    sent disconnected m1 websocket user_id :
  sweep_during send_json others room_id exclude_ws
    (elements (get_connections room_id m)) m = Some (sent, disconnected, m1) →
  attached websocket room_id m → Some websocket ≠ exclude_ws →
  send_json websocket = false →
  (∀ ws, ws ≠ websocket → attached ws room_id m → Some ws ≠ exclude_ws →
         send_json ws = true) →
  ws_users m1 !! websocket = Some user_id → user_id ≠ "" →
  user_rooms m1 !! user_id = Some room_id → room_id ≠ "" →
  is_Some (get_room room_id m1) →
  ∃ m', broadcast_to_room_during send_json others room_id exclude_ws m
          = Some (sent, m') ∧
        websocket ∈ sent ∧
        ¬ attached websocket room_id m' ∧
        ws_users m' !! websocket = None.
Proof.
  intros Hsweep Hin Hex Hfail Hothers Hws Huid Hur Hrid [room Hroom].
  unfold broadcast_to_room_during. rewrite Hsweep. eexists. split; [reflexivity|].
  apply sweep_during_sweep in Hsweep.
  pose proof (sweep_spec send_json exclude_ws
                (elements (get_connections room_id m))) as Hspec.
  rewrite Hsweep in Hspec. simpl in Hspec.
  split.
  { apply Hspec. by rewrite elem_of_elements. }
  assert (disconnected = {[websocket]}) as ->.
  { apply set_eq. intros ws. rewrite elem_of_singleton.
    rewrite (proj2 (Hspec ws)), elem_of_elements. split.
    - intros (Hin' & Hex' & Hsend). destruct (decide (ws = websocket)); [done|].
      rewrite (Hothers ws) in Hsend; done.
    - by intros ->. }
  rewrite elements_singleton. simpl.
  destruct (leave_room websocket m1) as [[[r user]|] m'] eqn:Hleave.
  - assert (r = room_id) as ->.
    { revert Hleave. unfold leave_room.
      rewrite Hws, (truthy_ne _ Huid), Hur, (truthy_ne _ Hrid), Hroom. simpl.
      destruct (od_pop user_id (Room.users room)). by intros [= <- _ _]. }
    by apply (leave_room_detaches _ _ _ _ _ Hleave).
  - revert Hleave. unfold leave_room.
    rewrite Hws, (truthy_ne _ Huid), Hur, (truthy_ne _ Hrid), Hroom. simpl.
    by destruct (od_pop user_id (Room.users room)).
Qed.

Lemma broadcast_during_prunes_failed_witness :
  ∃ m', broadcast_to_room_during (λ ws, negb (ws =? 7))
          (λ _, [OpUpdateCode "3f2a9c1e" "print(1)"]) "3f2a9c1e" None
          (run full_room_run init) = Some ([7], m') ∧
        7 ∈ [7] ∧
        ¬ attached 7 "3f2a9c1e" m' ∧
        ws_users m' !! 7 = None.
Proof.
  assert (∃ m1, sweep_during (λ ws, negb (ws =? 7))
                  (λ _, [OpUpdateCode "3f2a9c1e" "print(1)"]) "3f2a9c1e" None
                  (elements (get_connections "3f2a9c1e" (run full_room_run init)))
                  (run full_room_run init) = Some ([7], {[7]}, m1) ∧
                ws_users m1 !! 7 = Some "a1b2c3d4-0000-4000-8000-00000000000b" ∧
                user_rooms m1 !! "a1b2c3d4-0000-4000-8000-00000000000b"
                  = Some "3f2a9c1e" ∧
                is_Some (get_room "3f2a9c1e" m1))
    as (m1 & Hsweep & Hws & Hur & Hroom).
  { eexists. split; [vm_compute; reflexivity|].
    split; [vm_compute; reflexivity|]. split; [vm_compute; reflexivity|].
    vm_compute. by eexists. }
  apply (broadcast_during_prunes_failed (λ ws, negb (ws =? 7))
           (λ _, [OpUpdateCode "3f2a9c1e" "print(1)"]) "3f2a9c1e" None
           (run full_room_run init) [7] {[7]} m1 7
           "a1b2c3d4-0000-4000-8000-00000000000b").
  - exact Hsweep.
  - in_connections.
  - discriminate.
  - reflexivity.
  - intros ws Hne _ _. apply negb_true_iff, Nat.eqb_neq. exact Hne.
  - exact Hws.
  - discriminate.
  - exact Hur.
  - discriminate.
  - exact Hroom.
Defined.

(** ** More on the endpoints *)

(** X13 (which requests are refused).  The create endpoint refuses a
    request exactly when its name is empty, its host name is empty, or its
    [max_users] is below 2 or above 50; a refused request leaves the state as
    it was. *)
Theorem create_room_refused_iff e request m :
  ((Main.create_room e request m).1 = Main.ValidationError ↔
   Main.name request = "" ∨ Main.host_name request = "" ∨
   (Main.max_users request < 2)%Z ∨ (50 < Main.max_users request)%Z) ∧
  ((Main.create_room e request m).1 = Main.ValidationError →
   (Main.create_room e request m).2 = m).
Proof.
  assert (∀ s : string, (1 <=? String.length s) = false ↔ s = "") as Hlen.
  { intros [|a s]; simpl; [done|]. split; discriminate. }
  assert (Main.validate request = false ↔
          Main.name request = "" ∨ Main.host_name request = "" ∨
          (Main.max_users request < 2)%Z ∨ (50 < Main.max_users request)%Z) as Hval.
  { unfold Main.validate. rewrite !andb_false_iff, !Hlen, !Z.leb_gt. tauto. }
  unfold Main.create_room, room_manager.create_room.
  destruct (Main.validate request).
  - destruct (create_room _ _ _ _ _ _ _ _) as [room m']; simpl.
    split; [|done]. split; [done|]. intros H%Hval. done.
  - simpl. split; [|done]. split; [|done]. intros _. by apply Hval.
Qed.

Lemma create_room_refused_iff_witness :
  (Main.create_room env_demo
     (Main.mkCreateRoomRequest "demo" "" "Python" "" 10 true) init).2 = init.
Proof.
  apply (proj2 (create_room_refused_iff env_demo
                  (Main.mkCreateRoomRequest "demo" "" "Python" "" 10 true) init)).
  reflexivity.
Defined.

(** X14 (the list of public rooms).  The list endpoint shows the snapshot
    of a room exactly when the room is registered and public: no private
    room is listed and no public room is left out, and its count is at most
    the number of registered rooms.  In a reachable state every listed
    snapshot has at least one user. *)
Theorem public_rooms_listing m :
  (∀ snapshot,
     snapshot ∈ (Main.list_rooms m).1 ↔
     ∃ room_id room, get_room room_id m = Some room ∧
                     Room.is_public room = true ∧ snapshot = Room.to_dict room) ∧
  (Main.list_rooms m).2 = length (Main.list_rooms m).1 ∧
  (Main.list_rooms m).2 ≤ size (rooms m) ∧
  (reachable m →
   ∀ snapshot, snapshot ∈ (Main.list_rooms m).1 →
               Room.s_is_public snapshot = true ∧ 1 ≤ Room.s_user_count snapshot).
Proof.
  assert (∀ snapshot,
     snapshot ∈ (Main.list_rooms m).1 ↔
     ∃ room_id room, get_room room_id m = Some room ∧
                     Room.is_public room = true ∧ snapshot = Room.to_dict room) as Hiff.
  { intros snapshot.
    unfold Main.list_rooms, room_manager.get_public_rooms, get_public_rooms, get_room.
    simpl. rewrite list_elem_of_fmap. split.
    - intros (room & -> & [Hpub ([room_id r] & -> & Hin)%list_elem_of_fmap]%list_elem_of_filter).
      apply elem_of_map_to_list in Hin. by exists room_id, r.
    - intros (room_id & room & Hroom & Hpub & ->). exists room. split; [done|].
      apply list_elem_of_filter. split; [done|].
      apply list_elem_of_fmap. exists (room_id, room). split; [done|].
      by apply elem_of_map_to_list. }
  split; [done|]. split; [done|]. split.
  - unfold Main.list_rooms, room_manager.get_public_rooms, get_public_rooms. simpl.
    rewrite length_fmap. etrans; [apply length_filter|].
    by rewrite length_fmap, length_map_to_list.
  - intros Hm snapshot (room_id & room & Hroom & Hpub & ->)%Hiff.
    split; [done|]. simpl.
    pose proof (reachable_rooms_nonempty m Hm room_id room Hroom).
    destruct (Room.users room); [done|simpl; lia].
Qed.

Lemma public_rooms_listing_witness :
  ∃ snapshot, snapshot ∈ (Main.list_rooms (run full_room_run init)).1 ∧
              Room.s_is_public snapshot = true ∧ 1 ≤ Room.s_user_count snapshot.
Proof.
  destruct (public_rooms_listing (run full_room_run init)) as (Hiff & _ & _ & Hreach).
  assert (∃ room, get_room "3f2a9c1e" (run full_room_run init) = Some room ∧
                  Room.is_public room = true) as (room & Hroom & Hpub).
  { eexists. split; [vm_compute; reflexivity|reflexivity]. }
  assert (Room.to_dict room ∈ (Main.list_rooms (run full_room_run init)).1) as Hin.
  { apply Hiff. by exists "3f2a9c1e", room. }
  exists (Room.to_dict room). split; [exact Hin|].
  apply Hreach; [by eexists|exact Hin].
Defined.

(** ** A room that loses its host *)



